(** * Agentic Coach: the scoring, fallback, prompt and markdown core

    A shallow embedding of [src/app/api/ai/route.ts] (the POST handler,
    [buildPrompt], [buildFallbackSuggestions]) and of the client page
    ([prioritized], [addTask], [toggleDone], [Markdown], [escapeHtml]),
    followed by the properties of the specification.

    Conventions of the embedding.
    - A JavaScript string is a [string]: a sequence of 8-bit code units.
    - A finite JavaScript number is a decimal [m * 10^e] kept exactly
      (binary64 rounding is not modelled); [NaN] and the two infinities
      are separate values.
    - Task records are taken at their declared TypeScript type, with
      integral [effort] and [impact]; health fields are raw JSON
      primitives, because the code itself coerces them.
    - The [tasks] field of a request body is taken as the handler can
      receive it: absent, an array of task records and [null]
      elements, or a value that is no array. *)

From Stdlib Require Import ZArith List Bool Ascii String Lia.
From Stdlib Require Import Permutation Sorted.
From Stdlib Require Import Numbers.DecimalString.
Import ListNotations.
Open Scope string_scope.

(** ** The fragment of the JavaScript runtime the code relies on *)

Module JS.

Definition DQUOTE : ascii := ascii_of_nat 34.
Definition LF : ascii := ascii_of_nat 10.
Definition CR : ascii := ascii_of_nat 13.
Definition nl : string := String LF "".

(** WhiteSpace and LineTerminator code units below 256. *)
Definition isWhiteSpace (c : ascii) : bool :=
  let n := nat_of_ascii c in
  (((9 <=? n) && (n <=? 13)) || (n =? 32) || (n =? 160))%nat.

Fixpoint trimStart (s : string) : string :=
  match s with
  | "" => ""
  | String c s' => if isWhiteSpace c then trimStart s' else s
  end.

Fixpoint trimEnd (s : string) : string :=
  match s with
  | "" => ""
  | String c s' =>
      match trimEnd s' with
      | "" => if isWhiteSpace c then "" else String c ""
      | t => String c t
      end
  end.

Definition trim (s : string) : string := trimEnd (trimStart s).

Definition startsWith (s pre : string) : bool := prefix pre s.

(** [s.slice(n)] for [0 <= n]. *)
Fixpoint slice (s : string) (n : nat) : string :=
  match n, s with
  | O, _ => s
  | S k, String _ s' => slice s' k
  | S _, "" => ""
  end.

(** [xs.join(sep)] *)
Definition join (xs : list string) (sep : string) : string := concat sep xs.

(** [s.split(/\r?\n/)]: the leftmost match at each position; a carriage
    return not followed by a line feed stays in its line. *)
Fixpoint splitLines (s : string) : list string :=
  match s with
  | "" => [""]
  | String c rest =>
      let keep :=
        match splitLines rest with
        | l :: ls => String c l :: ls
        | [] => [String c ""]
        end in
      if Ascii.eqb c LF then "" :: splitLines rest
      else if Ascii.eqb c CR then
        match rest with
        | String c' rest' =>
            if Ascii.eqb c' LF then "" :: splitLines rest' else keep
        | "" => keep
        end
      else keep
  end.

(** [s.replaceAll(pat, rep)] for a string pattern: non-overlapping
    occurrences, left to right.  [skip] counts the code units of a match
    still to be passed over.  None of the replacement texts used by the
    code contains [$], so no replacement pattern is involved. *)
Fixpoint replaceAll_from (skip : nat) (s pat rep : string) : string :=
  match s with
  | "" => ""
  | String c s' =>
      match skip with
      | S k => replaceAll_from k s' pat rep
      | O =>
          if prefix pat s
          then rep ++ replaceAll_from (String.length pat - 1) s' pat rep
          else String c (replaceAll_from 0 s' pat rep)
      end
  end.

Definition replaceAll (s pat rep : string) : string :=
  replaceAll_from 0 s pat rep.

(** [xs.slice(0, n)] is [firstn n xs]; [xs.map((x, i) => f i x)]: *)
Fixpoint mapi_from {A B} (i : nat) (f : nat -> A -> B) (xs : list A) : list B :=
  match xs with
  | [] => []
  | x :: xs' => f i x :: mapi_from (S i) f xs'
  end.

Definition mapi {A B} (f : nat -> A -> B) (xs : list A) : list B :=
  mapi_from 0 f xs.

(** [Array.prototype.sort] with a comparator.  The sort is stable
    (ECMAScript 2019), so for a consistent comparator its result is
    determined; it is computed here by stable insertion: [x] goes before
    the first element it does not compare greater than. *)
Section Sort.
Context {A : Type} (cmp : A -> A -> Z).

Fixpoint insert (x : A) (l : list A) : list A :=
    match l with
    | [] => [x]
    | y :: l' => if (cmp x y <=? 0)%Z then x :: l else y :: insert x l'
    end.

Fixpoint sort (l : list A) : list A :=
    match l with
    | [] => []
    | x :: l' => insert x (sort l')
    end.
End Sort.

(** *** Numbers *)

Inductive number : Type :=
  | NaN
  | Infinity (neg : bool)
  | Fin (m e : Z).          (* m * 10^e *)

(** The canonical form of a finite value: no trailing zero in [m], and
    zero is [Fin 0 0] (the sign of zero is not observable here). *)
Fixpoint strip10 (fuel : nat) (m e : Z) : Z * Z :=
  match fuel with
  | O => (m, e)
  | S f => if (m mod 10 =? 0)%Z then strip10 f (m / 10)%Z (e + 1)%Z else (m, e)
  end.

Definition mkFin (m e : Z) : number :=
  if (m =? 0)%Z then Fin 0 0
  else let '(m', e') := strip10 (Z.to_nat (Z.log2 (Z.abs m))) m e in Fin m' e'.

Definition ofZ (z : Z) : number := mkFin z 0.

Definition neg (x : number) : number :=
  match x with
  | NaN => NaN
  | Infinity b => Infinity (negb b)
  | Fin m e => Fin (- m) e
  end.

(** [x < y] on numbers: false as soon as one side is [NaN]. *)
Definition lt (x y : number) : bool :=
  match x, y with
  | NaN, _ | _, NaN => false
  | Infinity true, Infinity true => false
  | Infinity true, _ => true
  | _, Infinity true => false
  | Infinity false, _ => false
  | Fin _ _, Infinity false => true
  | Fin m1 e1, Fin m2 e2 =>
      let e := Z.min e1 e2 in
      (m1 * 10 ^ (e1 - e) <? m2 * 10 ^ (e2 - e))%Z
  end.

Definition digits (z : Z) : string :=
  NilZero.string_of_uint (N.to_uint (Z.to_N z)).

Fixpoint zeros (n : nat) : string :=
  match n with O => "" | S k => String "0" (zeros k) end.

(** [Number::toString(x)] in radix 10: with [k] digits [ds] and decimal
    point position [n], positional notation for [-5 <= n <= 21] and
    exponent notation otherwise. *)
Definition numberToString (x : number) : string :=
  match x with
  | NaN => "NaN"
  | Infinity false => "Infinity"
  | Infinity true => "-Infinity"
  | Fin m0 e0 =>
      match mkFin m0 e0 with
      | Fin m e =>
          if (m =? 0)%Z then "0"
          else
            let sign := if (m <? 0)%Z then "-" else "" in
            let ds := digits (Z.abs m) in
            let k := Z.of_nat (String.length ds) in
            let n := (k + e)%Z in
            sign ++
            (if ((-5 <=? n) && (n <=? 21))%Z then
               if (k <=? n)%Z then ds ++ zeros (Z.to_nat (n - k))
               else if (0 <? n)%Z then
                 substring 0 (Z.to_nat n) ds ++ "." ++
                 substring (Z.to_nat n) (Z.to_nat (k - n)) ds
               else "0." ++ zeros (Z.to_nat (- n)) ++ ds
             else
               let ex := (n - 1)%Z in
               let es := (if (ex <? 0)%Z then "-" else "+") ++ digits (Z.abs ex) in
               match ds with
               | "" => ""
               | String d "" => String d "" ++ "e" ++ es
               | String d rest => String d "" ++ "." ++ rest ++ "e" ++ es
               end)
      | _ => "NaN"
      end
  end.

(** *** StringToNumber *)

Definition digitVal (base : Z) (c : ascii) : option Z :=
  let n := Z.of_nat (nat_of_ascii c) in
  let v :=
    if ((48 <=? n) && (n <=? 57))%Z then (n - 48)%Z
    else if ((97 <=? n) && (n <=? 102))%Z then (n - 87)%Z
    else if ((65 <=? n) && (n <=? 70))%Z then (n - 55)%Z
    else 99%Z in
  if (v <? base)%Z then Some v else None.

(** Consume the leading digits of [s] in [base]: their value on top of
    [acc], how many there were on top of [cnt], and the rest. *)
Fixpoint spanDigits (base : Z) (s : string) (acc cnt : Z) : Z * Z * string :=
  match s with
  | "" => (acc, cnt, "")
  | String c s' =>
      match digitVal base c with
      | Some v => spanDigits base s' (acc * base + v)%Z (cnt + 1)%Z
      | None => (acc, cnt, s)
      end
  end.

(** ExponentPart, when present, must be well formed and end the text. *)
Definition parseExponent (s : string) : option Z :=
  match s with
  | "" => Some 0%Z
  | String c r =>
      if Ascii.eqb c "e" || Ascii.eqb c "E" then
        let '(sg, r') :=
          match r with
          | String c' r'' =>
              if Ascii.eqb c' "-" then ((-1)%Z, r'')
              else if Ascii.eqb c' "+" then (1%Z, r'')
              else (1%Z, r)
          | "" => (1%Z, r)
          end in
        match spanDigits 10 r' 0 0 with
        | (v, cnt, "") => if (0 <? cnt)%Z then Some (sg * v)%Z else None
        | _ => None
        end
      else None
  end.

(** StrUnsignedDecimalLiteral *)
Definition parseUnsignedDecimal (s : string) : number :=
  if s =? "Infinity" then Infinity false
  else
    let '(ip, ic, r1) := spanDigits 10 s 0 0 in
    let '(fp, fc, r2) :=
      match r1 with
      | String c r =>
          if Ascii.eqb c "." then spanDigits 10 r 0 0 else (0%Z, 0%Z, r1)
      | "" => (0%Z, 0%Z, r1)
      end in
    if (0 <? ic + fc)%Z then
      match parseExponent r2 with
      | Some ex => mkFin (ip * 10 ^ fc + fp) (ex - fc)
      | None => NaN
      end
    else NaN.

(** NonDecimalIntegerLiteral: [0x], [0o], [0b] and their capitals. *)
Definition radixPrefix (s : string) : option (Z * string) :=
  match s with
  | String z (String x r) =>
      if Ascii.eqb z "0" then
        if Ascii.eqb x "x" || Ascii.eqb x "X" then Some (16%Z, r)
        else if Ascii.eqb x "o" || Ascii.eqb x "O" then Some (8%Z, r)
        else if Ascii.eqb x "b" || Ascii.eqb x "B" then Some (2%Z, r)
        else None
      else None
  | _ => None
  end.

Definition StringToNumber (s : string) : number :=
  let t := trim s in
  match radixPrefix t with
  | Some (base, r) =>
      match spanDigits base r 0 0 with
      | (v, cnt, "") => if (0 <? cnt)%Z then ofZ v else NaN
      | _ => NaN
      end
  | None =>
      match t with
      | "" => Fin 0 0
      | String c r =>
          if Ascii.eqb c "+" then parseUnsignedDecimal r
          else if Ascii.eqb c "-" then neg (parseUnsignedDecimal r)
          else parseUnsignedDecimal t
      end
  end.

(** *** Values read from a JSON body

    The primitives a health field can hold; [JUndefined] is an absent
    property. *)
Inductive value : Type :=
  | JUndefined
  | JNull
  | JBool (b : bool)
  | JNum (n : number)
  | JStr (s : string).

(** [v ?? d] *)
Definition nullish (v d : value) : value :=
  match v with
  | JUndefined | JNull => d
  | _ => v
  end.

(** [Number(v)] *)
Definition Number (v : value) : number :=
  match v with
  | JUndefined => NaN
  | JNull => Fin 0 0
  | JBool b => if b then Fin 1 0 else Fin 0 0
  | JNum n => n
  | JStr s => StringToNumber s
  end.

(** [String(v)] *)
Definition ToString (v : value) : string :=
  match v with
  | JUndefined => "undefined"
  | JNull => "null"
  | JBool b => if b then "true" else "false"
  | JNum n => numberToString n
  | JStr s => s
  end.

(** Truthiness of an optional string and of an optional boolean. *)
Definition truthyStr (o : option string) : bool :=
  match o with
  | Some s => negb (s =? "")
  | None => false
  end.

Definition truthyBool (o : option bool) : bool :=
  match o with
  | Some b => b
  | None => false
  end.

End JS.

(** ** The data model shared by the page and the route *)

Record Task : Type := mkTask {
  id : string;
  title : string;
  effort : Z;               (* // 1-5 *)
  impact : Z;               (* // 1-5 *)
  due : option string;
  done : option bool
}.

Record Health : Type := mkHealth {
  sleepHours : JS.value;
  waterCups : JS.value;
  steps : JS.value;
  breaksPerHour : JS.value;
  mood : JS.value
}.

Record SuggestionBundle : Type := mkBundle {
  plan : string;
  habits : list string;
  quickWins : list string;
  top : list string
}.

(** [`${n}`] for an integral number field. *)
Definition showZ (z : Z) : string := JS.numberToString (JS.ofZ z).

(** ** src/app/api/ai/route.ts *)

Module Route.
Import JS.

(** The coerced metrics record [h] of [buildPrompt]. *)
Record PromptHealth : Type := mkPromptHealth {
  h_sleep : number;
  h_water : number;
  h_steps : number;
  h_breaks : number;
  h_mood : string
}.

(** [Number(v ?? 0)] and [String(v ?? "unknown")], the two coercions
    applied to the health fields. *)
Definition metric (v : value) : number := Number (nullish v (JNum (ofZ 0))).

Definition moodText (v : value) : string := ToString (nullish v (JStr "unknown")).

Definition promptHealth (health : Health) : PromptHealth :=
  {| h_sleep := metric (sleepHours health);
     h_water := metric (waterCups health);
     h_steps := metric (steps health);
     h_breaks := metric (breaksPerHour health);
     h_mood := moodText (mood health) |}.

Definition taskLine (i : nat) (t : Task) : string :=
  showZ (Z.of_nat i + 1) ++ ". " ++ title t ++
  " (impact " ++ showZ (impact t) ++ "/5, effort " ++ showZ (effort t) ++ "/5" ++
  (if truthyStr (due t)
   then ", due " ++ match due t with Some d => d | None => "" end
   else "") ++
  (if truthyBool (done t) then ", marked done" else "") ++ ")".

Definition taskLines (tasks : list Task) : string :=
  join (mapi taskLine (firstn 30 tasks)) nl.

Definition buildPrompt (tasks : list Task) (health : Health) : string :=
  let h := promptHealth health in
  join
    [ "Here are my current tasks and health metrics.";
      "";
      "Tasks:";
      (if taskLines tasks =? "" then "(none)" else taskLines tasks);
      "";
      "Health:";
      "Sleep: " ++ numberToString (h_sleep h) ++ "h, Water: " ++
        numberToString (h_water h) ++ " cups, Steps: " ++
        numberToString (h_steps h) ++ ", Breaks/hour: " ++
        numberToString (h_breaks h) ++ ", Mood: " ++ h_mood h;
      "";
      "Please produce:";
      "1) A short day plan (time-boxed blocks).";
      "2) Top 5 task priorities with justifications (impact/effort/urgency).";
      "3) 5 habit tweaks that support today's workload (sleep, hydration, steps, breaks).";
      "4) 5 quick wins I can do in 10 minutes or less.";
      "Use markdown with headings and bullet lists. Be concrete, no fluff." ]
    nl.

(** The comparator of the fallback's sort. *)
Definition fallbackCompare (a b : Task) : Z :=
  (impact b * 2 - effort b - (impact a * 2 - effort a))%Z.

(** The character the source text has in the place of each dash. *)
Definition dash : string := "?".

Definition formatTop (t : Task) : string :=
  title t ++ " " ++ dash ++ " do soon (impact " ++ showZ (impact t) ++
  ", effort " ++ showZ (effort t) ++ ")".

Definition formatQuickWin (t : Task) : string :=
  "Start: " ++ title t ++ " (<=10m setup)".

Definition filler : string := "Inbox sweep: archive or assign 10 emails.".

(** [while (quickWins.length < 5) quickWins.push(filler)]: one iteration
    per unit of fuel. *)
Fixpoint padQuickWins (fuel : nat) (quickWins : list string) : list string :=
  match fuel with
  | O => quickWins
  | S f =>
      if (List.length quickWins <? 5)%nat
      then padQuickWins f (quickWins ++ [filler])%list
      else quickWins
  end.

(** The two derived lists [incomplete] and [prioritized]. *)
Definition incomplete (tasks : list Task) : list Task :=
  filter (fun t => negb (truthyBool (done t))) tasks.

Definition prioritized (tasks : list Task) : list Task :=
  sort fallbackCompare (incomplete tasks).

Definition buildFallbackSuggestions
    (tasks : list Task) (health : Health) (note : option string)
    : SuggestionBundle :=
  let incomplete := incomplete tasks in
  let prioritized := prioritized tasks in
  let top := map formatTop (firstn 5 prioritized) in
  let sleep := metric (sleepHours health) in
  let water := metric (waterCups health) in
  let steps := metric (steps health) in
  let breaks := metric (breaksPerHour health) in
  let habits :=
    [ if lt sleep (ofZ 7)
      then "Aim for 7?9h tonight; set a fixed shutdown time."
      else "Protect your sleep window; no screens 1h before bed.";
      if lt water (ofZ 8)
      then "Place a full bottle on desk; 2 cups by 10am, 4 by 2pm."
      else "Maintain hydration cadence: 1 cup per hour during work.";
      if lt steps (ofZ 8000)
      then "Insert two 10-min walks (midday and late afternoon) to hit 8?10k steps."
      else "Keep step streak with a brisk 20-min walk post-lunch.";
      if lt breaks (ofZ 2)
      then "Use 50/10 focus cycles; micro-stretch each break."
      else "Sustain 50/10 cadence; add 2x mobility breaks (AM/PM)." ] in
  let quickWins :=
    padQuickWins 5
      (map formatQuickWin
         (firstn 5 (filter (fun t => (effort t <=? 2)%Z) incomplete))) in
  let plan :=
    join
      [ "09:00?11:00 Deep Work: top priority";
        "11:00?11:10 Break + hydration";
        "11:10?12:30 Deep Work: priority #2";
        "12:30?13:15 Lunch + 10-min walk";
        "13:15?15:00 Execution: small tasks";
        "15:00?15:10 Break + mobility";
        "15:10?16:30 Execution: priority #3";
        "16:30?17:00 Wrap-up & plan tomorrow" ]
      nl in
  let habits :=
    if truthyStr note
    then (("(Note) " ++ match note with Some n => n | None => "" end) :: habits)
    else habits in
  {| plan := plan; habits := habits; quickWins := quickWins; top := top |}.

(** *** The POST handler

    The request body after [req.json()]: [None] when parsing rejects
    (the handler then continues with [{}]), [Some None] for a body that
    is [null] or no object, and an object with its [tasks] and [health].
    The cast of [body.tasks] checks nothing, so the field is modelled
    as the handler can receive it: absent or [null] (replaced by []),
    an array whose elements are task records or [null], or a value
    that is no array (a number, a boolean, an object, or text).
    Elements that are neither [null] nor records of the declared type
    are not modelled.  A [health] that is absent, [null] or no object
    reads as [{}]. *)
Inductive Element : Type :=
  | Item (t : Task)
  | NullItem.

Inductive TasksField : Type :=
  | NoTasks
  | TaskArray (items : list Element)
  | NotArray (text : bool).

Record Body : Type := mkBody {
  body_tasks : TasksField;
  body_health : option Health
}.

Definition Request : Type := option (option Body).

(** What the single upstream call does: some [await] of it rejects
    with an error carrying an optional message, or a response arrives
    with [res.ok] false and a body text, or with [res.ok] true and the
    value of [data?.choices?.[0]?.message?.content]. *)
Inductive Upstream : Type :=
  | Rejects (message : option string)
  | NotOk (text : string)
  | Ok (content : option string).

Inductive Payload : Type :=
  | Suggestions (provider : string) (suggestions : SuggestionBundle)
  | Content (provider : string) (content : string)
  | Error (error : string).

Record Response : Type := mkResponse {
  status : Z;
  payload : Payload
}.

(** A call that returns or throws a [TypeError] with a message. *)
Inductive Outcome (A : Type) : Type :=
  | Returns (a : A)
  | Throws (message : string).
Arguments Returns {A} a.
Arguments Throws {A} message.

(** The messages of the engine of the [nodejs] runtime. *)
Definition notAFunction (callee : string) : string :=
  callee ++ " is not a function".

Definition cannotReadNull (property : string) : string :=
  "Cannot read properties of null (reading '" ++ property ++ "')".

Definition emptyHealth : Health :=
  mkHealth JUndefined JUndefined JUndefined JUndefined JUndefined.

Definition requestTasks (req : Request) : TasksField :=
  match req with
  | Some (Some b) => body_tasks b
  | _ => NoTasks
  end.

Definition requestHealth (req : Request) : Health :=
  match req with
  | Some (Some b) => match body_health b with Some h => h | None => emptyHealth end
  | _ => emptyHealth
  end.

(** The task records of an array without [null] element. *)
Fixpoint records (items : list Element) : option (list Task) :=
  match items with
  | [] => Some []
  | Item t :: items' =>
      match records items' with
      | Some ts => Some (t :: ts)
      | None => None
      end
  | NullItem :: _ => None
  end.

(** [buildFallbackSuggestions(tasks, health, note)] on the field as
    received: [tasks.filter] is missing on a value that is no array, and
    its callback reads [t.done] of every element. *)
Definition callFallback (tasks : TasksField) (health : Health) (note : option string)
    : Outcome SuggestionBundle :=
  match tasks with
  | NoTasks => Returns (buildFallbackSuggestions [] health note)
  | NotArray _ => Throws (notAFunction "tasks.filter")
  | TaskArray items =>
      match records items with
      | Some ts => Returns (buildFallbackSuggestions ts health note)
      | None => Throws (cannotReadNull "done")
      end
  end.

(** [buildPrompt(tasks, health)] on the field as received: text has
    [slice] but its slice has no [map], the other values that are no
    array have no [slice], and the callback of [map] reads [t.title] of
    the first thirty elements only. *)
Definition callPrompt (tasks : TasksField) (health : Health) : Outcome string :=
  match tasks with
  | NoTasks => Returns (buildPrompt [] health)
  | NotArray text =>
      Throws (notAFunction (if text then "tasks.slice(...).map" else "tasks.slice"))
  | TaskArray items =>
      match records (firstn 30 items) with
      | Some ts => Returns (buildPrompt ts health)
      | None => Throws (cannotReadNull "title")
      end
  end.

(** The catch-all: [{ error: err?.message ?? "Unexpected error" }] with
    status 500. *)
Definition caught (message : option string) : Response :=
  mkResponse 500
    (Error match message with Some m => m | None => "Unexpected error" end).

Definition fallbackResponse (tasks : TasksField) (health : Health)
    (note : option string) : Response :=
  match callFallback tasks health note with
  | Returns suggestions => mkResponse 200 (Suggestions "fallback" suggestions)
  | Throws message => caught (Some message)
  end.

(** [fetch apiKey prompt] stands for the call to the completions
    endpoint; it is consulted only when a credential is set. *)
Definition POST (apiKey : option string) (fetch : string -> string -> Upstream)
    (req : Request) : Response :=
  let tasks := requestTasks req in
  let health := requestHealth req in
  if negb (truthyStr apiKey) then fallbackResponse tasks health None
  else
    let key := match apiKey with Some k => k | None => "" end in
    match callPrompt tasks health with
    | Throws message => caught (Some message)
    | Returns prompt =>
        match fetch key prompt with
        | NotOk text => fallbackResponse tasks health (Some ("AI error: " ++ text))
        | Ok content =>
            mkResponse 200
              (Content "openai" match content with Some c => c | None => "" end)
        | Rejects message => caught message
        end
    end.

End Route.

(** ** The client page *)

Module Page.
Import JS.

Record State : Type := mkState {
  tasks : list Task;
  taskTitle : string;
  taskEffort : Z;
  taskImpact : Z;
  taskDue : string
}.

Definition initialState : State :=
  {| tasks := []; taskTitle := ""; taskEffort := 2; taskImpact := 3; taskDue := "" |}.

(** The score of the display order. *)
Definition score (t : Task) : Z :=
  (impact t * 2 - effort t + (if truthyStr (due t) then 1 else 0))%Z.

Definition prioritized (ts : list Task) : list Task :=
  sort (fun a b => (score b - score a)%Z) ts.

(** [addTask], with the identifier [crypto.randomUUID()] returns. *)
Definition addTask (uuid : string) (st : State) : State :=
  if trim (taskTitle st) =? "" then st
  else
    {| tasks :=
         (tasks st ++
          [ {| id := uuid;
               title := trim (taskTitle st);
               effort := taskEffort st;
               impact := taskImpact st;
               due := if taskDue st =? "" then None else Some (taskDue st);
               done := Some false |} ])%list;
       taskTitle := "";
       taskEffort := 2;
       taskImpact := 3;
       taskDue := "" |}.

Definition toggleDone (i : string) (st : State) : State :=
  {| tasks :=
       map (fun t =>
              if id t =? i
              then {| id := id t; title := title t; effort := effort t;
                      impact := impact t; due := due t;
                      done := Some (negb (truthyBool (done t))) |}
              else t)
           (tasks st);
     taskTitle := taskTitle st;
     taskEffort := taskEffort st;
     taskImpact := taskImpact st;
     taskDue := taskDue st |}.

(** The form's change handlers; the sliders pass [Number(e.target.value)]. *)
Definition setTaskTitle (v : string) (st : State) : State :=
  {| tasks := tasks st; taskTitle := v; taskEffort := taskEffort st;
     taskImpact := taskImpact st; taskDue := taskDue st |}.

Definition setTaskEffort (v : Z) (st : State) : State :=
  {| tasks := tasks st; taskTitle := taskTitle st; taskEffort := v;
     taskImpact := taskImpact st; taskDue := taskDue st |}.

Definition setTaskImpact (v : Z) (st : State) : State :=
  {| tasks := tasks st; taskTitle := taskTitle st; taskEffort := taskEffort st;
     taskImpact := v; taskDue := taskDue st |}.

Definition setTaskDue (v : string) (st : State) : State :=
  {| tasks := tasks st; taskTitle := taskTitle st; taskEffort := taskEffort st;
     taskImpact := taskImpact st; taskDue := v |}.

(** The user's actions on the planner form, and the state after a
    sequence of them. *)
Inductive Event : Type :=
  | SetTitle (v : string)
  | SetEffort (v : Z)
  | SetImpact (v : Z)
  | SetDue (v : string)
  | AddTask (uuid : string)
  | ToggleDone (i : string).

Definition step (st : State) (ev : Event) : State :=
  match ev with
  | SetTitle v => setTaskTitle v st
  | SetEffort v => setTaskEffort v st
  | SetImpact v => setTaskImpact v st
  | SetDue v => setTaskDue v st
  | AddTask uuid => addTask uuid st
  | ToggleDone i => toggleDone i st
  end.

Definition run (evs : list Event) : State := fold_left step evs initialState.

(** *** The markdown renderer *)

Definition escapeHtml (s : string) : string :=
  replaceAll
    (replaceAll
       (replaceAll
          (replaceAll
             (replaceAll s "&" "&amp;")
             "<" "&lt;")
          ">" "&gt;")
       (String DQUOTE "") "&quot;")
    "'" "&#039;".

(** The fragment of one line (the body of the first loop). *)
Definition renderLine (line : string) : string :=
  if startsWith line "### " then "<h3>" ++ escapeHtml (slice line 4) ++ "</h3>"
  else if startsWith line "## " then "<h2>" ++ escapeHtml (slice line 3) ++ "</h2>"
  else if startsWith line "# " then "<h1>" ++ escapeHtml (slice line 2) ++ "</h1>"
  else if startsWith line "- " then "<li>" ++ escapeHtml (slice line 2) ++ "</li>"
  else if trim line =? "" then "<br/>"
  else "<p>" ++ escapeHtml line ++ "</p>".

(** The state of the second loop: [merged] and [buffer]. *)
Record Merge : Type := mkMerge {
  merged : list string;
  buffer : list string
}.

Definition flush (m : Merge) : Merge :=
  if (0 <? List.length (buffer m))%nat
  then {| merged := (merged m ++ [("<ul>" ++ join (buffer m) "" ++ "</ul>")%string])%list;
          buffer := [] |}
  else m.

Definition mergeStep (m : Merge) (frag : string) : Merge :=
  if startsWith frag "<li>"
  then {| merged := merged m; buffer := (buffer m ++ [frag])%list |}
  else
    let m' := flush m in
    {| merged := (merged m' ++ [frag])%list; buffer := buffer m' |}.

Definition mergeFragments (out : list string) : list string :=
  merged (flush (fold_left mergeStep out {| merged := []; buffer := [] |})).

Definition Markdown (content : string) : string :=
  let lines := splitLines content in
  let out := map renderLine lines in
  join (mergeFragments out) "".

(** *** Asking for insights

    What the page's [fetch("/api/ai")] observes: the call rejects, or the
    handler's response arrives. *)
Inductive Fetched : Type :=
  | NetworkFailure (message : option string)
  | Answered (r : Route.Response).

Record Insights : Type := mkInsights {
  aiResponse : option string;
  loading : bool;
  error : option string
}.

(** [res.ok] *)
Definition responseOk (r : Route.Response) : bool :=
  ((200 <=? Route.status r) && (Route.status r <=? 299))%Z.

(** The markdown assembled from a suggestion bundle. *)
Definition suggestionsMarkdown (b : SuggestionBundle) : string :=
  join
    ([ "## Personalized Plan"; ""; plan b; ""; "## Habit Tweaks"; "" ] ++
     map (fun h => ("- " ++ h)%string) (habits b) ++
     [ ""; "## Quick Wins"; "" ] ++
     map (fun q => ("- " ++ q)%string) (quickWins b))%list
    nl.

(** [e?.message || "Failed to get insights"] *)
Definition errorText (message : option string) : string :=
  if truthyStr message
  then match message with Some m => m | None => "" end
  else "Failed to get insights".

(** The three state variables after [getInsights] has run to its end;
    [bodyText] is the text [res.text()] returns for a response. *)
Definition getInsights (bodyText : Route.Response -> string) (f : Fetched) : Insights :=
  match f with
  | NetworkFailure message =>
      {| aiResponse := None; loading := false; error := Some (errorText message) |}
  | Answered r =>
      if negb (responseOk r)
      then {| aiResponse := None; loading := false;
              error := Some (errorText (Some (bodyText r))) |}
      else
        match Route.payload r with
        | Route.Content _ content =>
            if negb (content =? "")
            then {| aiResponse := Some content; loading := false; error := None |}
            else {| aiResponse := Some "No insights returned."; loading := false;
                    error := None |}
        | Route.Suggestions _ b =>
            {| aiResponse := Some (suggestionsMarkdown b); loading := false;
               error := None |}
        | Route.Error _ =>
            {| aiResponse := Some "No insights returned."; loading := false;
               error := None |}
        end
  end.

End Page.

(** ** The vocabulary of the properties

    The definitions that follow the words of the specification, to be
    compared with the definitions taken from the code, and the
    predicates the statements below are written with. *)

Module Spec.
Import JS.

(** §4.2 step 1 as worded: the incomplete tasks, sorted by the score of
    §4.1 (the page's [score], with the due-date bonus), first five,
    formatted as the code formats them. *)
Definition top_by_display_score (tasks : list Task) : list string :=
  map Route.formatTop
    (firstn 5
       (sort (fun a b => (Page.score b - Page.score a)%Z) (Route.incomplete tasks))).

(** §4.5: one replacement per character occurrence. *)
Definition escapeChar (c : ascii) : string :=
  if Ascii.eqb c "&" then "&amp;"
  else if Ascii.eqb c "<" then "&lt;"
  else if Ascii.eqb c ">" then "&gt;"
  else if Ascii.eqb c JS.DQUOTE then "&quot;"
  else if Ascii.eqb c "'" then "&#039;"
  else String c "".

Fixpoint escapeEach (s : string) : string :=
  match s with
  | "" => ""
  | String c s' => escapeChar c ++ escapeEach s'
  end.

(** A list line, and the number of maximal runs of list lines. *)
Definition isListLine (line : string) : bool := startsWith line "- ".

Fixpoint countRuns (inRun : bool) (lines : list string) : nat :=
  match lines with
  | [] => 0
  | l :: ls =>
      if isListLine l
      then (if inRun then 0 else 1) + countRuns true ls
      else countRuns false ls
  end.

(** The key the fallback's comparator orders by: it has no due-date
    term. *)
Definition fallbackKey (t : Task) : Z := (impact t * 2 - effort t)%Z.

(** Descending order of a key (§4.1, §4.2). *)
Definition descending {A : Type} (key : A -> Z) (a b : A) : Prop :=
  (key b <= key a)%Z.

(** §3: effort and impact between 1 and 5. *)
Definition inRange (t : Task) : Prop :=
  (1 <= effort t <= 5)%Z /\ (1 <= impact t <= 5)%Z.

(** The range inputs of the form have [min={1}] and [max={5}]: a
    slider event that respects them. *)
Definition sliderInRange (ev : Page.Event) : Prop :=
  match ev with
  | Page.SetEffort v | Page.SetImpact v => (1 <= v <= 5)%Z
  | _ => True
  end.

(** Every character of [s] satisfies [p]. *)
Fixpoint allChars (p : ascii -> bool) (s : string) : bool :=
  match s with
  | "" => true
  | String c s' => p c && allChars p s'
  end.

(** The four characters that must not survive escaping. *)
Definition special (c : ascii) : bool :=
  Ascii.eqb c "<" || Ascii.eqb c ">" || Ascii.eqb c JS.DQUOTE || Ascii.eqb c "'".

(** The characters that follow [<] in the renderer's own tags. *)
Definition tagStart (d : ascii) : bool :=
  Ascii.eqb d "h" || Ascii.eqb d "/" || Ascii.eqb d "l" ||
  Ascii.eqb d "u" || Ascii.eqb d "b" || Ascii.eqb d "p".

(** Every [<] of [s] opens one of the renderer's own tags. *)
Fixpoint tagSafe (s : string) : bool :=
  match s with
  | "" => true
  | String c s' =>
      (if Ascii.eqb c "<"
       then match s' with String d _ => tagStart d | "" => false end
       else true) && tagSafe s'
  end.

(** §4.5: a fragment is the line-break marker or the escaped remainder
    of its line between an opening and a closing tag. *)
Definition wrapped (line frag : string) : Prop :=
  frag = "<br/>" \/
  exists tag n,
    In tag ["h1"; "h2"; "h3"; "li"; "p"] /\
    frag = "<" ++ tag ++ ">" ++ escapeEach (slice line n) ++ "</" ++ tag ++ ">".

(** The enclosing list of a run of fragments, and of a run of list
    lines. *)
Definition wrapList (items : list string) : string :=
  "<ul>" ++ join items "" ++ "</ul>".

Definition listOf (run : list string) : string :=
  wrapList (map (fun l => "<li>" ++ escapeEach (slice l 2) ++ "</li>") run).

(** Grouping as a function of the fragments still to come and of the
    items collected so far. *)
Definition flushed (buf : list string) : list string :=
  match buf with
  | [] => []
  | _ => [wrapList buf]
  end.

Fixpoint groupFrom (buf frags : list string) : list string :=
  match frags with
  | [] => flushed buf
  | f :: fs =>
      if startsWith f "<li>"
      then groupFrom (buf ++ [f]) fs
      else (flushed buf ++ f :: groupFrom [] fs)%list
  end.

(** The number of enclosing lists among fragments. *)
Definition countLists (frags : list string) : nat :=
  List.length (filter (fun f => startsWith f "<ul>") frags).

(** A text without line feed or carriage return. *)
Definition singleLine (s : string) : bool :=
  allChars (fun c => negb (Ascii.eqb c LF) && negb (Ascii.eqb c CR)) s.

(** A text that needs no escaping. *)
Definition plainText (s : string) : bool :=
  allChars (fun c => negb (Ascii.eqb c "&") && negb (special c)) s.

(** Reading the five entities back.  [skip] counts the characters of an
    entity still to be passed over. *)
Fixpoint unescape_from (skip : nat) (s : string) : string :=
  match s with
  | "" => ""
  | String c s' =>
      match skip with
      | S k => unescape_from k s'
      | O =>
          if Ascii.eqb c "&" then
            if prefix "amp;" s' then String "&" (unescape_from 4 s')
            else if prefix "lt;" s' then String "<" (unescape_from 3 s')
            else if prefix "gt;" s' then String ">" (unescape_from 3 s')
            else if prefix "quot;" s' then String DQUOTE (unescape_from 5 s')
            else if prefix "#039;" s' then String "'" (unescape_from 5 s')
            else String c (unescape_from 0 s')
          else String c (unescape_from 0 s')
      end
  end.

Definition unescape (s : string) : string := unescape_from 0 s.

(** A title as [addTask] stores it: not empty, no white space at either
    end. *)
Definition storedTask (t : Task) : Prop :=
  title t <> "" /\ trim (title t) = title t /\
  (exists b, done t = Some b) /\ due t <> Some "".

(** A task without its done flag. *)
Definition core (t : Task) : string * string * Z * Z * option string :=
  (id t, title t, effort t, impact t, due t).

(** The enclosing list of escaped items, and the fragments expected
    for the markdown of a fallback bundle with habits [hs] and quick
    wins [qs]. *)
Definition itemList (xs : list string) : string :=
  "<ul>" ++ concat "" (map (fun x => "<li>" ++ Page.escapeHtml x ++ "</li>") xs) ++ "</ul>".

Definition fallbackFragments (hs qs : list string) : list string :=
  [ "<h2>Personalized Plan</h2>"; "<br/>";
    "<p>09:00?11:00 Deep Work: top priority</p>";
    "<p>11:00?11:10 Break + hydration</p>";
    "<p>11:10?12:30 Deep Work: priority #2</p>";
    "<p>12:30?13:15 Lunch + 10-min walk</p>";
    "<p>13:15?15:00 Execution: small tasks</p>";
    "<p>15:00?15:10 Break + mobility</p>";
    "<p>15:10?16:30 Execution: priority #3</p>";
    "<p>16:30?17:00 Wrap-up &amp; plan tomorrow</p>";
    "<br/>"; "<h2>Habit Tweaks</h2>"; "<br/>"; itemList hs;
    "<br/>"; "<h2>Quick Wins</h2>"; "<br/>"; itemList qs ].

(** The identifiers handed to [addTask] in a sequence of actions. *)
Fixpoint addedIds (evs : list Page.Event) : list string :=
  match evs with
  | [] => []
  | Page.AddTask uuid :: evs' => uuid :: addedIds evs'
  | _ :: evs' => addedIds evs'
  end.

(** A task with its done flag flipped, as [toggleDone] writes it. *)
Definition flipped (t : Task) : Task :=
  mkTask (id t) (title t) (effort t) (impact t) (due t)
         (Some (negb (truthyBool (done t)))).

(** The task records of a tasks field that is absent or an array
    without [null] element; there are none for any other field. *)
Definition taskRecords (tasks : Route.TasksField) : option (list Task) :=
  match tasks with
  | Route.NoTasks => Some []
  | Route.TaskArray items => Route.records items
  | Route.NotArray _ => None
  end.

(** [needle] occurs in [s]. *)
Definition occursIn (needle s : string) : Prop :=
  exists a b, s = a ++ needle ++ b.

End Spec.

(** ** Concrete inputs used in the examples below *)

Module Samples.
Import JS.

Definition plain : Task := mkTask "1" "plain" 1 1 None None.
Definition dated : Task := mkTask "2" "dated" 1 1 (Some "2024-01-01") None.

(** A health record whose sleep field is text that is no number and
    whose mood is none of low, ok, high; and the same with sleep 0. *)
Definition oddHealth : Health :=
  mkHealth (JStr "abc") JUndefined JUndefined JUndefined (JStr "ecstatic").

Definition zeroSleepHealth : Health :=
  mkHealth (JNum (ofZ 0)) JUndefined JUndefined JUndefined (JStr "ecstatic").

(** The example metrics of §8. *)
Definition exampleHealth : Health :=
  mkHealth (JNum (ofZ 5)) (JNum (ofZ 10)) (JNum (ofZ 3000)) (JNum (ofZ 1)) JUndefined.

(** Thirty-two tasks: more than the prompt lists. *)
Definition manyTasks : list Task :=
  repeat plain 30 ++ [dated; dated].

(** An upstream that answers every call with status 503 and a body. *)
Definition failingFetch (key prompt : string) : Route.Upstream :=
  Route.NotOk "quota exceeded".

Definition emptyRequest : Route.Request :=
  Some (Some (Route.mkBody Route.NoTasks None)).

(** A request whose only task has effort 9 and impact 0. *)
Definition wild : Task := mkTask "w" "x" 9 0 None None.

Definition wildRequest : Route.Request :=
  Some (Some (Route.mkBody (Route.TaskArray [Route.Item wild]) None)).

(** Requests whose tasks are an array with a [null] element, and a
    number. *)
Definition nullRequest : Route.Request :=
  Some (Some (Route.mkBody (Route.TaskArray [Route.NullItem]) None)).

Definition numberRequest : Route.Request :=
  Some (Some (Route.mkBody (Route.NotArray false) None)).

(** An upstream whose call rejects. *)
Definition rejectingFetch (key prompt : string) : Route.Upstream :=
  Route.Rejects (Some "fetch failed").

(** A session of the planner form. *)
Definition session : list Page.Event :=
  [ Page.SetTitle "  write report "; Page.SetEffort 5; Page.SetImpact 1;
    Page.AddTask "u1"; Page.SetTitle "call"; Page.AddTask "u2";
    Page.ToggleDone "u1" ].

Definition typing : Page.State := Page.setTaskTitle "call" Page.initialState.

(** Two list lines, a paragraph, one more list line. *)
Definition notes : string :=
  "- a" ++ nl ++ "- b" ++ nl ++ "x" ++ nl ++ "- c".

End Samples.

(** ** The runtime fragment on examples *)

Example numberToString_examples :
  map JS.numberToString
    [ JS.Fin 7 0; JS.Fin 75 (-1); JS.Fin 8000 0; JS.Fin 1 21; JS.Fin 1 20;
      JS.Fin (-1) (-6); JS.Fin 1 (-7); JS.Fin 0 5; JS.NaN; JS.Infinity true ] =
    [ "7"; "7.5"; "8000"; "1e+21"; "100000000000000000000";
      "-0.000001"; "1e-7"; "0"; "NaN"; "-Infinity" ].
Proof. vm_compute. reflexivity. Qed.

Example StringToNumber_examples :
  map JS.StringToNumber
    [ "abc"; " 12 "; "1e3"; "1.5e-2"; "0x1F"; ""; "   "; "-Infinity";
      ".5"; "5."; "."; "1e"; "12px"; "-0x10"; "007" ] =
    [ JS.NaN; JS.Fin 12 0; JS.Fin 1 3; JS.Fin 15 (-3); JS.Fin 31 0; JS.Fin 0 0;
      JS.Fin 0 0; JS.Infinity true; JS.Fin 5 (-1); JS.Fin 5 0; JS.NaN; JS.NaN;
      JS.NaN; JS.NaN; JS.Fin 7 0 ].
Proof. vm_compute. reflexivity. Qed.

Example splitLines_examples :
  JS.splitLines "" = [""] /\
  JS.splitLines ("a" ++ JS.nl) = ["a"; ""] /\
  JS.splitLines ("a" ++ String JS.CR JS.nl ++ "b") = ["a"; "b"] /\
  JS.splitLines ("a" ++ String JS.CR "b") = ["a" ++ String JS.CR "b"] /\
  JS.splitLines ("a" ++ String JS.CR (String JS.CR JS.nl) ++ "b") =
    ["a" ++ String JS.CR ""; "b"].
Proof. vm_compute. repeat split. Qed.

Example sort_is_stable_example :
  JS.sort (fun a b => (snd b - snd a)%Z)
    [("p", 1%Z); ("q", 3%Z); ("r", 1%Z); ("s", 3%Z)] =
    [("q", 3%Z); ("s", 3%Z); ("p", 1%Z); ("r", 1%Z)].
Proof. vm_compute. reflexivity. Qed.

(** The fuel of [mkFin] is enough: the mantissa it returns has no
    trailing zero. *)
Lemma strip10_canonical (fuel : nat) (m e : Z) :
  m <> 0%Z -> (Z.abs m < 2 ^ Z.of_nat (S fuel))%Z ->
  (fst (JS.strip10 fuel m e) mod 10 <> 0)%Z.
Proof.
  revert m e. induction fuel as [|f IH]; intros m e Hm Hb; cbn [JS.strip10].
  - cbn [fst]. change (2 ^ Z.of_nat 1)%Z with 2%Z in Hb.
    assert (m = 1 \/ m = -1)%Z as [-> | ->] by lia; discriminate.
  - destruct (Z.eqb_spec (m mod 10) 0) as [Hz|Hnz]; [|exact Hnz].
    pose proof (Z.div_mod m 10 ltac:(lia)) as Hd. rewrite Hz in Hd.
    apply IH; [lia|].
    rewrite Nat2Z.inj_succ, Z.pow_succ_r in Hb by lia. lia.
Qed.

Lemma mkFin_canonical (m e : Z) :
  m <> 0%Z ->
  exists m' e', JS.mkFin m e = JS.Fin m' e' /\ (m' mod 10 <> 0)%Z.
Proof.
  intros Hm. unfold JS.mkFin. destruct (Z.eqb_spec m 0) as [|_]; [contradiction|].
  pose proof (strip10_canonical (Z.to_nat (Z.log2 (Z.abs m))) m e Hm) as H.
  destruct (JS.strip10 (Z.to_nat (Z.log2 (Z.abs m))) m e) as [m' e'].
  exists m', e'. split; [reflexivity|]. apply H.
  rewrite Nat2Z.inj_succ, Z2Nat.id by apply Z.log2_nonneg.
  apply Z.log2_spec. lia.
Qed.

(** ** Sorting by a key, descending *)

Section SortByKey.
Context {A : Type} (key : A -> Z) (cmp : A -> A -> Z).
Hypothesis cmp_key : forall a b, cmp a b = (key b - key a)%Z.

Lemma insert_perm (x : A) (l : list A) :
    Permutation (JS.insert cmp x l) (x :: l).
  Proof.
    induction l as [|y l IH]; simpl.
    - apply Permutation_refl.
    - destruct (cmp x y <=? 0)%Z.
      + apply Permutation_refl.
      + eapply perm_trans; [apply perm_skip, IH | apply perm_swap].
  Qed.

Lemma sort_perm (l : list A) : Permutation (JS.sort cmp l) l.
  Proof.
    induction l as [|x l IH]; simpl.
    - constructor.
    - eapply perm_trans; [apply insert_perm | apply perm_skip, IH].
  Qed.

Lemma insert_sorted (x : A) (l : list A) :
    StronglySorted (Spec.descending key) l ->
    StronglySorted (Spec.descending key) (JS.insert cmp x l).
  Proof.
    induction 1 as [|y l Hs IH Hy]; simpl.
    - repeat constructor.
    - rewrite cmp_key. destruct (Z.leb_spec (key y - key x) 0) as [Hle|Hgt].
      + constructor; [constructor; assumption|].
        constructor; [unfold Spec.descending; lia|].
        eapply Forall_impl; [|exact Hy].
        unfold Spec.descending; intros; lia.
      + constructor; [exact IH|].
        eapply Permutation_Forall; [apply Permutation_sym, insert_perm|].
        constructor; [unfold Spec.descending; lia | exact Hy].
  Qed.

Lemma sort_sorted (l : list A) :
    StronglySorted (Spec.descending key) (JS.sort cmp l).
  Proof.
    induction l as [|x l IH]; simpl.
    - constructor.
    - apply insert_sorted, IH.
  Qed.

  (** Stability: the elements of any one key keep their input order. *)
Lemma insert_same_key (k : Z) (x : A) (l : list A) :
    filter (fun t => (key t =? k)%Z) (JS.insert cmp x l) =
    filter (fun t => (key t =? k)%Z) (x :: l).
  Proof.
    induction l as [|y l IH]; [reflexivity|].
    cbn [JS.insert]. rewrite cmp_key.
    destruct (Z.leb_spec (key y - key x) 0) as [Hle|Hgt]; [reflexivity|].
    cbn [filter] in *. rewrite IH.
    destruct (Z.eqb_spec (key x) k), (Z.eqb_spec (key y) k);
      try reflexivity; lia.
  Qed.

Lemma sort_stable (k : Z) (l : list A) :
    filter (fun t => (key t =? k)%Z) (JS.sort cmp l) =
    filter (fun t => (key t =? k)%Z) l.
  Proof.
    induction l as [|x l IH]; [reflexivity|].
    cbn [JS.sort]. rewrite insert_same_key. cbn [filter]. rewrite IH. reflexivity.
  Qed.
End SortByKey.

(** ** The display order of the page (§4.1) *)

(** C2. The page's score of a task is [2*impact - effort], plus one when
    the task has a (non-empty) due date; the displayed list is a
    rearrangement of the task list, in descending order of the score,
    in which the tasks of any one score keep their insertion order; the
    tasks A (impact 5, effort 1, due set) and B (impact 1, effort 5)
    score 10 and -3 and are displayed as [A, B], whichever was entered
    first. *)
Theorem prioritized_descending_stable :
  (forall t : Task,
      Page.score t =
      (2 * impact t - effort t + (if JS.truthyStr (due t) then 1 else 0))%Z) /\
  (forall ts : list Task,
      Permutation (Page.prioritized ts) ts /\
      StronglySorted (Spec.descending Page.score) (Page.prioritized ts) /\
      (forall k : Z,
          filter (fun t => (Page.score t =? k)%Z) (Page.prioritized ts) =
          filter (fun t => (Page.score t =? k)%Z) ts)) /\
  (let A := mkTask "a" "A" 1 5 (Some "2024-01-01") None in
   let B := mkTask "b" "B" 5 1 None None in
   Page.score A = 10%Z /\ Page.score B = (-3)%Z /\
   Page.prioritized [A; B] = [A; B] /\ Page.prioritized [B; A] = [A; B]).
Proof.
  split; [|split].
  - intros t. unfold Page.score. lia.
  - intros ts. unfold Page.prioritized. split; [|split].
    + apply sort_perm.
    + apply sort_sorted. intros; reflexivity.
    + intros k. apply sort_stable. intros; reflexivity.
  - vm_compute. repeat split.
Qed.

(** ** The fallback generator (§4.2) *)

Lemma fallbackCompare_key (a b : Task) :
  Route.fallbackCompare a b = (Spec.fallbackKey b - Spec.fallbackKey a)%Z.
Proof. reflexivity. Qed.

Lemma incomplete_filter (tasks : list Task) :
  Route.incomplete tasks =
  filter (fun t => match done t with Some true => false | _ => true end) tasks.
Proof.
  unfold Route.incomplete. apply filter_ext. intros t.
  destruct (done t) as [[|]|]; reflexivity.
Qed.

(** C1, as the code has it. With [inc] the tasks of the input whose done
    flag is not true, in the order of the input, the [top] field lists
    the first five of the stable rearrangement of [inc] in descending
    order of [impact*2 - effort] (tasks of equal key keep the order of
    the input), in which the due date plays no part, each formatted as
    title, separator, then "do soon (impact i, effort e)". *)
Theorem fallback_top_sorted_by_impact_effort :
  forall (tasks : list Task) (health : Health) (note : option string),
    let b := Route.buildFallbackSuggestions tasks health note in
    let inc := filter (fun t => match done t with Some true => false | _ => true end) tasks in
    let p := Route.prioritized tasks in
    top b = map Route.formatTop (firstn 5 p) /\
    List.length (top b) = Nat.min 5 (List.length inc) /\
    Permutation p inc /\
    (forall t, In t inc <-> In t tasks /\ done t <> Some true) /\
    StronglySorted (Spec.descending Spec.fallbackKey) p /\
    (forall k : Z,
        filter (fun t => (Spec.fallbackKey t =? k)%Z) p =
        filter (fun t => (Spec.fallbackKey t =? k)%Z) inc) /\
    (forall t d, Spec.fallbackKey t = Spec.fallbackKey (mkTask (id t) (title t) (effort t) (impact t) d (done t))) /\
    (forall t,
        Route.formatTop t =
        title t ++ " " ++ Route.dash ++ " do soon (impact " ++ showZ (impact t) ++
        ", effort " ++ showZ (effort t) ++ ")") /\
    (forall t, Spec.fallbackKey t = (impact t * 2 - effort t)%Z) /\
    Route.incomplete tasks = inc.
Proof.
  intros tasks health note b inc p. subst b inc p.
  rewrite <- incomplete_filter.
  assert (Hperm : Permutation (Route.prioritized tasks) (Route.incomplete tasks))
    by (apply sort_perm).
  split; [reflexivity|].
  split.
  { cbn [Route.buildFallbackSuggestions top]. rewrite length_map, length_firstn.
    rewrite (Permutation_length Hperm). reflexivity. }
  split; [exact Hperm|].
  split.
  { intros t. unfold Route.incomplete. rewrite filter_In. split.
    - intros [Hin Hd]. split; [exact Hin|]. intros E. rewrite E in Hd. discriminate.
    - intros [Hin Hd]. split; [exact Hin|].
      destruct (done t) as [[|]|]; try reflexivity. congruence. }
  split; [apply sort_sorted; exact fallbackCompare_key|].
  split; [intros k; apply sort_stable; exact fallbackCompare_key|].
  repeat split.
Qed.

(** C1, as the specification words it, fails: of two incomplete tasks
    with impact 1 and effort 1, the second with a due date, the score of
    §4.1 ranks the dated one first, and the fallback keeps the input
    order. *)
Lemma fallback_top_ignores_due_date :
  top (Route.buildFallbackSuggestions [Samples.plain; Samples.dated]
         Route.emptyHealth None)
  <> Spec.top_by_display_score [Samples.plain; Samples.dated].
Proof. vm_compute. discriminate. Qed.

Lemma padQuickWins_fills (fuel : nat) (l : list string) :
  (5 - List.length l <= fuel)%nat ->
  Route.padQuickWins fuel l = (l ++ repeat Route.filler (5 - List.length l))%list.
Proof.
  revert l. induction fuel as [|f IH]; intros l Hf; cbn [Route.padQuickWins].
  - replace (5 - List.length l)%nat with 0%nat by lia. cbn. now rewrite app_nil_r.
  - destruct (Nat.ltb_spec (List.length l) 5) as [Hlt|Hge].
    + rewrite IH by (rewrite length_app; cbn [List.length]; lia).
      rewrite length_app. cbn [List.length].
      replace (5 - List.length l)%nat with (S (5 - (List.length l + 1)))%nat by lia.
      cbn [repeat]. rewrite <- app_assoc. reflexivity.
    + replace (5 - List.length l)%nat with 0%nat by lia. cbn. now rewrite app_nil_r.
Qed.

Lemma quickWins_padded (tasks : list Task) (health : Health) (note : option string) :
  let low := firstn 5 (filter (fun t => (effort t <=? 2)%Z) (Route.incomplete tasks)) in
  quickWins (Route.buildFallbackSuggestions tasks health note) =
    (map Route.formatQuickWin low ++ repeat Route.filler (5 - List.length low))%list /\
  (List.length low <= 5)%nat.
Proof.
  intros low.
  assert (Hlow : (List.length low <= 5)%nat)
    by (subst low; rewrite length_firstn; lia).
  split; [|exact Hlow].
  cbn [Route.buildFallbackSuggestions quickWins]. fold low.
  rewrite padQuickWins_fills by (rewrite length_map; lia).
  now rewrite length_map.
Qed.

Lemma quickWins_length (tasks : list Task) (health : Health) (note : option string) :
  List.length (quickWins (Route.buildFallbackSuggestions tasks health note)) = 5%nat.
Proof.
  destruct (quickWins_padded tasks health note) as [Hq Hlow].
  rewrite Hq, length_app, length_map, repeat_length. lia.
Qed.

(** C9. The [quickWins] field always has exactly five entries: with
    [low] the first five of the tasks of the input, in input order,
    whose done flag is not true and whose effort is at most 2, it is
    the lines "Start: title (<=10m setup)" of [low] followed by as many
    copies of the filler line as are needed to reach five; with no task
    at all it is five copies of the filler line and [top] is empty. *)
Theorem fallback_quickWins_five :
  forall (tasks : list Task) (health : Health) (note : option string),
    let b := Route.buildFallbackSuggestions tasks health note in
    let low :=
      firstn 5
        (filter (fun t => (effort t <=? 2)%Z)
           (filter (fun t => match done t with Some true => false | _ => true end)
              tasks)) in
    quickWins b =
      (map (fun t => ("Start: " ++ title t ++ " (<=10m setup)")%string) low ++
       repeat "Inbox sweep: archive or assign 10 emails."%string
              (5 - List.length low))%list /\
    List.length (quickWins b) = 5%nat /\
    (List.length low <= 5)%nat /\
    (forall t, Route.formatQuickWin t = "Start: " ++ title t ++ " (<=10m setup)") /\
    quickWins (Route.buildFallbackSuggestions [] health note) =
      repeat "Inbox sweep: archive or assign 10 emails." 5 /\
    top (Route.buildFallbackSuggestions [] health note) = [].
Proof.
  intros tasks health note b low. subst low.
  rewrite <- incomplete_filter.
  destruct (quickWins_padded tasks health note) as [Hq Hlow].
  split; [exact Hq|].
  split; [apply quickWins_length|].
  split; [exact Hlow|].
  repeat split.
Qed.

(** *** Comparison of integral numbers *)

Lemma strip10_value (fuel : nat) (m e : Z) :
  (e <= snd (JS.strip10 fuel m e) /\
   fst (JS.strip10 fuel m e) * 10 ^ (snd (JS.strip10 fuel m e) - e) = m)%Z.
Proof.
  revert m e. induction fuel as [|f IH]; intros m e; cbn [JS.strip10].
  - cbn [fst snd]. rewrite Z.sub_diag. lia.
  - destruct (Z.eqb_spec (m mod 10) 0) as [Hz|Hnz].
    + destruct (IH (m / 10) (e + 1))%Z as [Hle Hv].
      split; [lia|].
      replace (snd (JS.strip10 f (m / 10) (e + 1)) - e)%Z
        with (Z.succ (snd (JS.strip10 f (m / 10) (e + 1)) - (e + 1)))%Z by lia.
      rewrite Z.pow_succ_r by lia.
      rewrite (Z.mul_comm 10), Z.mul_assoc, Hv.
      pose proof (Z.div_mod m 10 ltac:(lia)). lia.
    + cbn [fst snd]. rewrite Z.sub_diag. lia.
Qed.

Lemma ofZ_value (a : Z) :
  exists m e, JS.ofZ a = JS.Fin m e /\ (0 <= e)%Z /\ (m * 10 ^ e)%Z = a.
Proof.
  unfold JS.ofZ, JS.mkFin. destruct (Z.eqb_spec a 0) as [->|Hnz].
  - exists 0%Z, 0%Z. repeat split; lia.
  - pose proof (strip10_value (Z.to_nat (Z.log2 (Z.abs a))) a 0) as [Hle Hv].
    destruct (JS.strip10 (Z.to_nat (Z.log2 (Z.abs a))) a 0) as [m e].
    cbn [fst snd] in *. exists m, e. rewrite Z.sub_0_r in Hv. repeat split; assumption.
Qed.

Lemma lt_ofZ (a b : Z) : JS.lt (JS.ofZ a) (JS.ofZ b) = (a <? b)%Z.
Proof.
  destruct (ofZ_value a) as (m1 & e1 & -> & He1 & <-).
  destruct (ofZ_value b) as (m2 & e2 & -> & He2 & <-).
  cbn [JS.lt].
  set (e := Z.min e1 e2).
  assert (He : (0 <= e)%Z) by (subst e; lia).
  replace (10 ^ e1)%Z with (10 ^ (e1 - e) * 10 ^ e)%Z
    by (rewrite <- Z.pow_add_r by lia; f_equal; lia).
  replace (10 ^ e2)%Z with (10 ^ (e2 - e) * 10 ^ e)%Z
    by (rewrite <- Z.pow_add_r by lia; f_equal; lia).
  assert (Hp : (0 < 10 ^ e)%Z) by (apply Z.pow_pos_nonneg; lia).
  rewrite !Z.mul_assoc.
  destruct (Z.ltb_spec (m1 * 10 ^ (e1 - e)) (m2 * 10 ^ (e2 - e))) as [H|H];
    symmetry; [apply Z.ltb_lt | apply Z.ltb_ge]; nia.
Qed.

(** C8. The [habits] field is the four metric tips, in the order sleep,
    water, steps, breaks, each the actionable phrasing when the coerced
    metric is below its threshold (7, 8, 8000, 2) and the maintenance
    phrasing otherwise: four entries when no note is supplied, five
    when a note is supplied, the note coming first as "(Note) note".
    The notes the handler supplies are "AI error: " followed by the
    text of the upstream response, never empty; the guard [if (note)]
    would pass over an empty one.  On integral metrics "below" is the
    order of the integers. *)
Theorem fallback_habits_by_threshold :
  forall (tasks : list Task) (health : Health) (note : option string),
    let b := Route.buildFallbackSuggestions tasks health note in
    let tips :=
      [ if JS.lt (Route.metric (sleepHours health)) (JS.ofZ 7)
        then "Aim for 7?9h tonight; set a fixed shutdown time."
        else "Protect your sleep window; no screens 1h before bed.";
        if JS.lt (Route.metric (waterCups health)) (JS.ofZ 8)
        then "Place a full bottle on desk; 2 cups by 10am, 4 by 2pm."
        else "Maintain hydration cadence: 1 cup per hour during work.";
        if JS.lt (Route.metric (steps health)) (JS.ofZ 8000)
        then "Insert two 10-min walks (midday and late afternoon) to hit 8?10k steps."
        else "Keep step streak with a brisk 20-min walk post-lunch.";
        if JS.lt (Route.metric (breaksPerHour health)) (JS.ofZ 2)
        then "Use 50/10 focus cycles; micro-stretch each break."
        else "Sustain 50/10 cadence; add 2x mobility breaks (AM/PM)." ] in
    (note = None \/ note = Some "" ->
       habits b = tips /\ List.length (habits b) = 4%nat) /\
    (forall n, note = Some n -> n <> "" ->
       habits b = ("(Note) " ++ n) :: tips /\ List.length (habits b) = 5%nat) /\
    (forall z k : Z,
       JS.lt (Route.metric (JS.JNum (JS.ofZ z))) (JS.ofZ k) = (z <? k)%Z) /\
    (forall text, note = Some ("AI error: " ++ text) ->
       habits b = ("(Note) AI error: " ++ text) :: tips /\
       List.length (habits b) = 5%nat).
Proof.
  intros tasks health note b tips. subst b. split; [|split; [|split]].
  - intros [-> | ->]; split; reflexivity.
  - intros n -> Hn.
    assert (Ht : JS.truthyStr (Some n) = true).
    { cbn. destruct (String.eqb_spec n ""); [contradiction | reflexivity]. }
    cbn [Route.buildFallbackSuggestions habits]. rewrite Ht. split; reflexivity.
  - intros z k. cbn [Route.metric JS.nullish JS.Number]. apply lt_ofZ.
  - intros text ->. split; reflexivity.
Qed.

Lemma fallback_habits_by_threshold_witness :
  habits (Route.buildFallbackSuggestions [] Samples.exampleHealth (Some "AI error: 503")) =
    [ "(Note) AI error: 503";
      "Aim for 7?9h tonight; set a fixed shutdown time.";
      "Maintain hydration cadence: 1 cup per hour during work.";
      "Insert two 10-min walks (midday and late afternoon) to hit 8?10k steps.";
      "Use 50/10 focus cycles; micro-stretch each break." ] /\
  List.length (habits (Route.buildFallbackSuggestions [] Samples.exampleHealth None)) = 4%nat.
Proof.
  split.
  - apply (proj1 (proj2 (fallback_habits_by_threshold [] Samples.exampleHealth
                           (Some "AI error: 503"))) "AI error: 503" eq_refl).
    discriminate.
  - apply (proj1 (fallback_habits_by_threshold [] Samples.exampleHealth None)).
    left. reflexivity.
Defined.

(** An empty note, which the handler never supplies, would not be
    prepended. *)
Lemma fallback_habits_empty_note :
  List.length (habits (Route.buildFallbackSuggestions [] Route.emptyHealth (Some "")))
  <> 5%nat.
Proof. vm_compute. discriminate. Qed.

(** ** Coercion of the health fields (§4.2, §4.3) *)




(** ** The prompt builder (§4.3) *)

Lemma mapi_from_length {A B : Type} (f : nat -> A -> B) (l : list A) (k : nat) :
  List.length (JS.mapi_from k f l) = List.length l.
Proof.
  revert k. induction l as [|x l IH]; intros k; cbn; [reflexivity|].
  now rewrite IH.
Qed.

Lemma mapi_from_nth_error {A B : Type} (f : nat -> A -> B) (l : list A) (k i : nat) :
  nth_error (JS.mapi_from k f l) i = option_map (f (k + i)%nat) (nth_error l i).
Proof.
  revert k i. induction l as [|x l IH]; intros k [|i]; cbn; try reflexivity.
  - now rewrite Nat.add_0_r.
  - rewrite IH. now replace (S k + i)%nat with (k + S i)%nat by lia.
Qed.

Lemma taskLines_firstn (tasks : list Task) :
  Route.taskLines (firstn 30 tasks) = Route.taskLines tasks.
Proof.
  unfold Route.taskLines. rewrite firstn_firstn. reflexivity.
Qed.

Lemma buildPrompt_taskLines (ts ts' : list Task) (health : Health) :
  Route.taskLines ts = Route.taskLines ts' ->
  Route.buildPrompt ts health = Route.buildPrompt ts' health.
Proof.
  intros E. unfold Route.buildPrompt. rewrite E. reflexivity.
Qed.

Lemma append_nonempty_r (a b : string) : b <> "" -> a ++ b <> "".
Proof.
  intros Hb E. destruct a as [|c a]; [cbn in E; contradiction | discriminate].
Qed.

Lemma taskLine_nonempty (i : nat) (t : Task) : Route.taskLine i t <> "".
Proof.
  unfold Route.taskLine. apply append_nonempty_r. discriminate.
Qed.

Lemma taskLines_empty_iff (tasks : list Task) :
  Route.taskLines tasks = "" <-> tasks = [].
Proof.
  split; [|intros ->; reflexivity].
  destruct tasks as [|t ts]; [reflexivity|].
  unfold Route.taskLines, JS.mapi. change 30%nat with (S 29).
  rewrite firstn_cons. cbn [JS.mapi_from].
  generalize (JS.mapi_from 1 Route.taskLine (firstn 29 ts)). intros rest E. exfalso.
  pose proof (taskLine_nonempty 0 t) as Hne.
  unfold JS.join in E. destruct rest as [|l ls]; cbn [concat] in E.
  - contradiction.
  - destruct (Route.taskLine 0 t); [contradiction | discriminate].
Qed.

(** C10. The prompt lists the first thirty tasks and no other, one
    numbered line each, in the order of the task list, with impact and
    effort out of five and the due and done annotations; the tasks
    beyond the thirtieth leave no trace: the prompt is the prompt of
    the first thirty, whatever follows them.  The prompt is the fixed
    opening, these lines joined by line feeds ("(none)" without any
    task), the health line and the fixed instructions. *)
Theorem prompt_lists_first_thirty :
  forall (tasks : list Task) (health : Health),
    let lines := JS.mapi Route.taskLine (firstn 30 tasks) in
    Route.taskLines tasks = JS.join lines JS.nl /\
    List.length lines = Nat.min 30 (List.length tasks) /\
    (forall i t, nth_error tasks i = Some t -> (i < 30)%nat ->
       nth_error lines i = Some (Route.taskLine i t)) /\
    (forall i t,
       Route.taskLine i t =
       showZ (Z.of_nat i + 1) ++ ". " ++ title t ++
       " (impact " ++ showZ (impact t) ++ "/5, effort " ++ showZ (effort t) ++ "/5" ++
       (match due t with
        | Some d => if d =? "" then "" else ", due " ++ d
        | None => ""
        end) ++
       (match done t with Some true => ", marked done" | _ => "" end) ++ ")") /\
    Route.buildPrompt tasks health = Route.buildPrompt (firstn 30 tasks) health /\
    (forall extra, (30 <= List.length tasks)%nat ->
       Route.buildPrompt (tasks ++ extra) health = Route.buildPrompt tasks health) /\
    Route.buildPrompt tasks health =
    concat (String "010" "")
      [ "Here are my current tasks and health metrics."; ""; "Tasks:";
        match tasks with [] => "(none)" | _ => concat (String "010" "") lines end;
        ""; "Health:";
        "Sleep: " ++ JS.numberToString (Route.metric (sleepHours health)) ++
          "h, Water: " ++ JS.numberToString (Route.metric (waterCups health)) ++
          " cups, Steps: " ++ JS.numberToString (Route.metric (steps health)) ++
          ", Breaks/hour: " ++ JS.numberToString (Route.metric (breaksPerHour health)) ++
          ", Mood: " ++ Route.moodText (mood health);
        ""; "Please produce:";
        "1) A short day plan (time-boxed blocks).";
        "2) Top 5 task priorities with justifications (impact/effort/urgency).";
        "3) 5 habit tweaks that support today's workload (sleep, hydration, steps, breaks).";
        "4) 5 quick wins I can do in 10 minutes or less.";
        "Use markdown with headings and bullet lists. Be concrete, no fluff." ].
Proof.
  intros tasks health lines. subst lines.
  split; [reflexivity|].
  split; [unfold JS.mapi; now rewrite mapi_from_length, length_firstn|].
  split.
  { intros i t Hi Hlt. unfold JS.mapi.
    rewrite mapi_from_nth_error, nth_error_firstn.
    apply Nat.ltb_lt in Hlt. rewrite Hlt, Hi. reflexivity. }
  split.
  { intros i t. unfold Route.taskLine, JS.truthyStr, JS.truthyBool.
    destruct (due t) as [d|]; [destruct (d =? "")|];
      destruct (done t) as [[|]|]; reflexivity. }
  split.
  { apply buildPrompt_taskLines. symmetry. apply taskLines_firstn. }
  split.
  { intros extra Hlen. apply buildPrompt_taskLines.
    unfold Route.taskLines. rewrite firstn_app.
    replace (30 - List.length tasks)%nat with 0%nat by lia.
    cbn [firstn]. now rewrite app_nil_r. }
  unfold Route.buildPrompt. destruct tasks as [|t ts]; [reflexivity|].
  destruct (String.eqb_spec (Route.taskLines (t :: ts)) "") as [E|_]; [|reflexivity].
  apply taskLines_empty_iff in E. discriminate.
Qed.

Lemma prompt_lists_first_thirty_witness :
  nth_error (JS.mapi Route.taskLine (firstn 30 Samples.manyTasks)) 2 =
    Some "3. plain (impact 1/5, effort 1/5)" /\
  Route.buildPrompt (repeat Samples.plain 30 ++ [Samples.dated; Samples.dated])
                    Samples.exampleHealth =
  Route.buildPrompt (repeat Samples.plain 30) Samples.exampleHealth.
Proof.
  pose proof (prompt_lists_first_thirty Samples.manyTasks Samples.exampleHealth)
    as (_ & _ & Hnth & _).
  pose proof (prompt_lists_first_thirty (repeat Samples.plain 30) Samples.exampleHealth)
    as (_ & _ & _ & _ & _ & Hextra & _).
  split.
  - apply (Hnth 2%nat Samples.plain); [reflexivity | lia].
  - apply Hextra. vm_compute. lia.
Defined.

(** ** The POST handler (§4.4, §7) *)

Lemma records_firstn (n : nat) (items : list Route.Element) (ts : list Task) :
  Route.records items = Some ts ->
  Route.records (firstn n items) = Some (firstn n ts).
Proof.
  revert items ts. induction n as [|n IH]; intros items ts H; [reflexivity|].
  destruct items as [|[t|] items]; cbn [Route.records] in H.
  - injection H as <-. reflexivity.
  - destruct (Route.records items) as [ts'|] eqn:E; [|discriminate].
    injection H as <-. cbn [firstn Route.records]. now rewrite (IH items ts' E).
  - discriminate.
Qed.

Lemma callFallback_records (tasks : Route.TasksField) (ts : list Task)
    (health : Health) (note : option string) :
  Spec.taskRecords tasks = Some ts ->
  Route.callFallback tasks health note =
  Route.Returns (Route.buildFallbackSuggestions ts health note).
Proof.
  destruct tasks as [|items|text]; cbn [Spec.taskRecords Route.callFallback]; intros H.
  - injection H as <-. reflexivity.
  - rewrite H. reflexivity.
  - discriminate.
Qed.

Lemma callFallback_malformed (tasks : Route.TasksField) (health : Health)
    (note : option string) :
  Spec.taskRecords tasks = None ->
  exists message, Route.callFallback tasks health note = Route.Throws message.
Proof.
  destruct tasks as [|items|text]; cbn [Spec.taskRecords Route.callFallback]; intros H.
  - discriminate.
  - rewrite H. eexists. reflexivity.
  - eexists. reflexivity.
Qed.

Lemma callPrompt_records (tasks : Route.TasksField) (ts : list Task) (health : Health) :
  Spec.taskRecords tasks = Some ts ->
  Route.callPrompt tasks health = Route.Returns (Route.buildPrompt ts health).
Proof.
  destruct tasks as [|items|text]; cbn [Spec.taskRecords Route.callPrompt]; intros H.
  - injection H as <-. reflexivity.
  - rewrite (records_firstn 30 items ts H). f_equal.
    apply buildPrompt_taskLines, taskLines_firstn.
  - discriminate.
Qed.

Lemma fallbackResponse_records (tasks : Route.TasksField) (ts : list Task)
    (health : Health) (note : option string) :
  Spec.taskRecords tasks = Some ts ->
  Route.fallbackResponse tasks health note =
  Route.mkResponse 200
    (Route.Suggestions "fallback" (Route.buildFallbackSuggestions ts health note)).
Proof.
  intros H. unfold Route.fallbackResponse. now rewrite (callFallback_records _ ts).
Qed.

Lemma fallbackResponse_malformed (tasks : Route.TasksField) (health : Health)
    (note : option string) :
  Spec.taskRecords tasks = None ->
  exists e, Route.fallbackResponse tasks health note = Route.mkResponse 500 (Route.Error e).
Proof.
  intros H. unfold Route.fallbackResponse.
  destruct (callFallback_malformed tasks health note H) as [m ->].
  eexists. reflexivity.
Qed.

Lemma POST_with_key (key : string) (fetch : string -> string -> Route.Upstream)
    (req : Route.Request) (ts : list Task) :
  key <> "" ->
  Spec.taskRecords (Route.requestTasks req) = Some ts ->
  Route.POST (Some key) fetch req =
  match fetch key (Route.buildPrompt ts (Route.requestHealth req)) with
  | Route.NotOk text =>
      Route.mkResponse 200
        (Route.Suggestions "fallback"
           (Route.buildFallbackSuggestions ts (Route.requestHealth req)
              (Some ("AI error: " ++ text))))
  | Route.Ok content =>
      Route.mkResponse 200
        (Route.Content "openai" match content with Some c => c | None => "" end)
  | Route.Rejects message =>
      Route.mkResponse 500
        (Route.Error match message with Some m => m | None => "Unexpected error" end)
  end.
Proof.
  intros Hk Hts. unfold Route.POST. cbn [JS.truthyStr].
  destruct (String.eqb_spec key ""); [contradiction|]. cbn [negb].
  rewrite (callPrompt_records _ ts _ Hts).
  destruct (fetch key _); [reflexivity | | reflexivity].
  now apply fallbackResponse_records.
Qed.

Lemma POST_without_key (apiKey : option string) (fetch : string -> string -> Route.Upstream)
    (req : Route.Request) :
  JS.truthyStr apiKey = false ->
  Route.POST apiKey fetch req =
  Route.fallbackResponse (Route.requestTasks req) (Route.requestHealth req) None.
Proof. intros H. unfold Route.POST. rewrite H. reflexivity. Qed.

Lemma POST_malformed (apiKey : option string) (fetch : string -> string -> Route.Upstream)
    (req : Route.Request) :
  Spec.taskRecords (Route.requestTasks req) = None ->
  (exists e, Route.POST apiKey fetch req = Route.mkResponse 500 (Route.Error e)) \/
  (exists c, Route.POST apiKey fetch req = Route.mkResponse 200 (Route.Content "openai" c)).
Proof.
  intros H. unfold Route.POST.
  destruct (negb (JS.truthyStr apiKey)).
  - left. now apply fallbackResponse_malformed.
  - destruct (Route.callPrompt _ _) as [prompt|m]; [|left; eexists; reflexivity].
    destruct (fetch _ prompt) as [m|text|c].
    + left. eexists. reflexivity.
    + left. now apply fallbackResponse_malformed.
    + right. eexists. reflexivity.
Qed.




(** ** The range of effort and impact (§3) *)

Lemma step_keeps_range (st : Page.State) (ev : Page.Event) :
  Spec.sliderInRange ev ->
  Forall Spec.inRange (Page.tasks st) ->
  (1 <= Page.taskEffort st <= 5)%Z -> (1 <= Page.taskImpact st <= 5)%Z ->
  Forall Spec.inRange (Page.tasks (Page.step st ev)) /\
  (1 <= Page.taskEffort (Page.step st ev) <= 5)%Z /\
  (1 <= Page.taskImpact (Page.step st ev) <= 5)%Z.
Proof.
  intros Hev Hts He Hi. destruct ev as [v|v|v|v|uuid|i]; cbn in Hev |- *; auto.
  - unfold Page.addTask. destruct (JS.trim (Page.taskTitle st) =? ""); cbn; auto.
    split; [|lia]. apply Forall_app. split; [exact Hts|].
    constructor; [|constructor]. split; assumption.
  - split; [|auto]. apply Forall_map. eapply Forall_impl; [|exact Hts].
    intros t Ht. destruct (id t =? i); exact Ht.
Qed.

Lemma run_keeps_range (evs : list Page.Event) (st : Page.State) :
  Forall Spec.sliderInRange evs ->
  Forall Spec.inRange (Page.tasks st) ->
  (1 <= Page.taskEffort st <= 5)%Z -> (1 <= Page.taskImpact st <= 5)%Z ->
  Forall Spec.inRange (Page.tasks (fold_left Page.step evs st)).
Proof.
  revert st. induction evs as [|ev evs IH]; intros st Hevs Hts He Hi; cbn.
  - exact Hts.
  - inversion Hevs as [|? ? Hev Hrest]; subst.
    destruct (step_keeps_range st ev Hev Hts He Hi) as (H1 & H2 & H3).
    apply IH; assumption.
Qed.

Lemma toggleDone_keeps_fields (i : string) (st : Page.State) :
  map effort (Page.tasks (Page.toggleDone i st)) = map effort (Page.tasks st) /\
  map impact (Page.tasks (Page.toggleDone i st)) = map impact (Page.tasks st).
Proof.
  cbn [Page.toggleDone Page.tasks]. rewrite !map_map.
  split; apply map_ext; intros t; destruct (id t =? i); reflexivity.
Qed.




(** ** The markdown renderer (§4.5) *)

Lemma prefix_nil (s : string) : prefix "" s = true.
Proof. destruct s; reflexivity. Qed.

Lemma prefix_char (p c : ascii) (s : string) :
  prefix (String p "") (String c s) = Ascii.eqb p c.
Proof.
  cbn [prefix]. rewrite prefix_nil. destruct (ascii_dec p c) as [->|Hne].
  - now rewrite Ascii.eqb_refl.
  - symmetry. now apply Ascii.eqb_neq.
Qed.

Lemma replaceAll_char (p c : ascii) (rep s : string) :
  JS.replaceAll (String c s) (String p "") rep =
  (if Ascii.eqb p c then rep else String c "") ++ JS.replaceAll s (String p "") rep.
Proof.
  unfold JS.replaceAll. cbn [JS.replaceAll_from]. rewrite prefix_char.
  destruct (Ascii.eqb p c); reflexivity.
Qed.

Lemma append_assoc (a b c : string) : (a ++ b) ++ c = a ++ (b ++ c).
Proof. induction a as [|x a IH]; cbn; [reflexivity | now rewrite IH]. Qed.

Lemma append_nil_r (a : string) : a ++ "" = a.
Proof. induction a as [|x a IH]; cbn; [reflexivity | now rewrite IH]. Qed.

Lemma replaceAll_app (p : ascii) (rep a b : string) :
  JS.replaceAll (a ++ b) (String p "") rep =
  JS.replaceAll a (String p "") rep ++ JS.replaceAll b (String p "") rep.
Proof.
  induction a as [|c a IH]; [reflexivity|].
  cbn [append]. rewrite !replaceAll_char, IH, append_assoc. reflexivity.
Qed.

Lemma replaceAll_single (p c : ascii) (rep : string) :
  JS.replaceAll (String c "") (String p "") rep =
  if Ascii.eqb p c then rep else String c "".
Proof. rewrite replaceAll_char. cbn. apply append_nil_r. Qed.

(** The five passes, run one after the other, amount to one replacement
    per character. *)
Lemma escapeHtml_cons (c : ascii) (s : string) :
  Page.escapeHtml (String c s) = Spec.escapeChar c ++ Page.escapeHtml s.
Proof.
  unfold Page.escapeHtml.
  rewrite (replaceAll_char "&" c). rewrite !replaceAll_app. f_equal.
  unfold Spec.escapeChar.
  rewrite (Ascii.eqb_sym c "&"), (Ascii.eqb_sym c "<"), (Ascii.eqb_sym c ">"),
    (Ascii.eqb_sym c JS.DQUOTE), (Ascii.eqb_sym c "'").
  destruct (Ascii.eqb "&" c) eqn:E1; cbv iota; [reflexivity|].
  rewrite (replaceAll_single "<" c).
  destruct (Ascii.eqb "<" c) eqn:E2; cbv iota; [reflexivity|].
  rewrite (replaceAll_single ">" c).
  destruct (Ascii.eqb ">" c) eqn:E3; cbv iota; [reflexivity|].
  rewrite (replaceAll_single JS.DQUOTE c).
  destruct (Ascii.eqb JS.DQUOTE c) eqn:E4; cbv iota; [reflexivity|].
  rewrite (replaceAll_single "'" c).
  destruct (Ascii.eqb "'" c) eqn:E5; reflexivity.
Qed.

Lemma escapeHtml_each (s : string) : Page.escapeHtml s = Spec.escapeEach s.
Proof.
  induction s as [|c s IH]; [reflexivity|].
  rewrite escapeHtml_cons, IH. reflexivity.
Qed.

Lemma allChars_app (p : ascii -> bool) (a b : string) :
  Spec.allChars p (a ++ b) = Spec.allChars p a && Spec.allChars p b.
Proof.
  induction a as [|c a IH]; [reflexivity|].
  cbn [append Spec.allChars]. rewrite IH. apply andb_assoc.
Qed.

Lemma escapeChar_plain (c : ascii) :
  Spec.allChars (fun x => negb (Spec.special x)) (Spec.escapeChar c) = true.
Proof.
  unfold Spec.escapeChar.
  destruct (Ascii.eqb c "&") eqn:E1; [reflexivity|].
  destruct (Ascii.eqb c "<") eqn:E2; [reflexivity|].
  destruct (Ascii.eqb c ">") eqn:E3; [reflexivity|].
  destruct (Ascii.eqb c JS.DQUOTE) eqn:E4; [reflexivity|].
  destruct (Ascii.eqb c "'") eqn:E5; [reflexivity|].
  cbn [Spec.allChars]. unfold Spec.special. rewrite E2, E3, E4, E5. reflexivity.
Qed.

Lemma escapeEach_plain (s : string) :
  Spec.allChars (fun x => negb (Spec.special x)) (Spec.escapeEach s) = true.
Proof.
  induction s as [|c s IH]; [reflexivity|].
  cbn [Spec.escapeEach]. rewrite allChars_app, escapeChar_plain, IH. reflexivity.
Qed.

Lemma tagSafe_app (a b : string) :
  Spec.tagSafe a = true -> Spec.tagSafe b = true -> Spec.tagSafe (a ++ b) = true.
Proof.
  intros Ha Hb. induction a as [|c a IH]; [exact Hb|].
  cbn [append Spec.tagSafe] in *. apply andb_true_iff in Ha as [Hc Ha].
  rewrite (IH Ha), andb_true_r.
  destruct (Ascii.eqb c "<"); [|reflexivity].
  destruct a as [|d a]; [discriminate | exact Hc].
Qed.

Lemma tagSafe_plain (s : string) :
  Spec.allChars (fun x => negb (Spec.special x)) s = true -> Spec.tagSafe s = true.
Proof.
  induction s as [|c s IH]; [reflexivity|].
  cbn [Spec.allChars Spec.tagSafe]. intros H. apply andb_true_iff in H as [Hc Hs].
  rewrite (IH Hs), andb_true_r.
  unfold Spec.special in Hc. destruct (Ascii.eqb c "<"); [discriminate | reflexivity].
Qed.

Lemma tagSafe_escapeEach (s : string) : Spec.tagSafe (Spec.escapeEach s) = true.
Proof. apply tagSafe_plain, escapeEach_plain. Qed.

Lemma tagSafe_script (a b : string) : Spec.tagSafe (a ++ "<script>" ++ b) = false.
Proof.
  induction a as [|c a IH]; [reflexivity|].
  cbn [append Spec.tagSafe]. cbn [append] in IH. rewrite IH. apply andb_false_r.
Qed.

Lemma concat_cons (x : string) (xs : list string) :
  concat "" (x :: xs) = x ++ concat "" xs.
Proof. destruct xs; cbn [concat append]; [now rewrite append_nil_r | reflexivity]. Qed.

Lemma concat_app (xs ys : list string) :
  concat "" (xs ++ ys) = concat "" xs ++ concat "" ys.
Proof.
  induction xs as [|x xs IH]; [reflexivity|].
  rewrite <- app_comm_cons, !concat_cons, IH, append_assoc. reflexivity.
Qed.

Lemma tagSafe_concat (l : list string) :
  Forall (fun f => Spec.tagSafe f = true) l -> Spec.tagSafe (concat "" l) = true.
Proof.
  induction 1 as [|x l Hx Hl IH]; [reflexivity|].
  rewrite concat_cons. now apply tagSafe_app.
Qed.

(** Each line gives one of the six fragments. *)
Lemma renderLine_wrapped (line : string) : Spec.wrapped line (Page.renderLine line).
Proof.
  unfold Page.renderLine, Spec.wrapped. rewrite !escapeHtml_each.
  destruct (JS.startsWith line "### ").
  { right. exists "h3", 4%nat. split; [cbn; tauto | reflexivity]. }
  destruct (JS.startsWith line "## ").
  { right. exists "h2", 3%nat. split; [cbn; tauto | reflexivity]. }
  destruct (JS.startsWith line "# ").
  { right. exists "h1", 2%nat. split; [cbn; tauto | reflexivity]. }
  destruct (JS.startsWith line "- ").
  { right. exists "li", 2%nat. split; [cbn; tauto | reflexivity]. }
  destruct (JS.trim line =? "").
  { left. reflexivity. }
  right. exists "p", 0%nat. split; [cbn; tauto | destruct line; reflexivity].
Qed.

Lemma wrapped_tagSafe (line frag : string) :
  Spec.wrapped line frag -> Spec.tagSafe frag = true.
Proof.
  intros [-> | (tag & n & Hin & ->)]; [reflexivity|].
  assert (Hopen : forall rest, Spec.tagSafe rest = true ->
                    Spec.tagSafe ("<" ++ tag ++ ">" ++ rest) = true).
  { intros rest Hr. cbn in Hin.
    destruct Hin as [<-|[<-|[<-|[<-|[<-|[]]]]]]; cbn [append Spec.tagSafe];
      rewrite Hr; reflexivity. }
  apply Hopen. apply tagSafe_app; [apply tagSafe_escapeEach|].
  cbn in Hin. destruct Hin as [<-|[<-|[<-|[<-|[<-|[]]]]]]; reflexivity.
Qed.

(** *** The second loop as a function *)

Lemma flush_spec (m : Page.Merge) :
  Page.merged (Page.flush m) = (Page.merged m ++ Spec.flushed (Page.buffer m))%list /\
  Page.buffer (Page.flush m) = [].
Proof.
  unfold Page.flush. destruct m as [mg [|x buf]]; cbn.
  - now rewrite app_nil_r.
  - split; reflexivity.
Qed.

Lemma mergeFragments_fold (out : list string) (m : Page.Merge) :
  Page.merged (Page.flush (fold_left Page.mergeStep out m)) =
  (Page.merged m ++ Spec.groupFrom (Page.buffer m) out)%list.
Proof.
  revert m. induction out as [|f out IH]; intros m; cbn [fold_left Spec.groupFrom].
  - apply flush_spec.
  - rewrite IH. unfold Page.mergeStep.
    destruct (JS.startsWith f "<li>"); cbn [Page.merged Page.buffer]; [reflexivity|].
    destruct (flush_spec m) as [-> ->]. now rewrite <- !app_assoc.
Qed.

Lemma mergeFragments_group (out : list string) :
  Page.mergeFragments out = Spec.groupFrom [] out.
Proof. unfold Page.mergeFragments. now rewrite mergeFragments_fold. Qed.

Lemma tagSafe_wrapList (buf : list string) :
  Forall (fun f => Spec.tagSafe f = true) buf ->
  Spec.tagSafe (Spec.wrapList buf) = true.
Proof.
  intros H. unfold Spec.wrapList, JS.join.
  change ("<ul>" ++ concat "" buf ++ "</ul>")
    with ("<ul>" ++ (concat "" buf ++ "</ul>")).
  apply tagSafe_app; [reflexivity|].
  apply tagSafe_app; [now apply tagSafe_concat | reflexivity].
Qed.

Lemma tagSafe_groupFrom (frags buf : list string) :
  Forall (fun f => Spec.tagSafe f = true) buf ->
  Forall (fun f => Spec.tagSafe f = true) frags ->
  Forall (fun f => Spec.tagSafe f = true) (Spec.groupFrom buf frags).
Proof.
  revert buf. induction frags as [|f fs IH]; intros buf Hb Hf; cbn [Spec.groupFrom].
  - destruct buf; cbn [Spec.flushed]; [constructor|].
    constructor; [now apply tagSafe_wrapList | constructor].
  - inversion Hf as [|? ? Hx Hrest]; subst.
    destruct (JS.startsWith f "<li>").
    + apply IH; [|exact Hrest]. apply Forall_app. split; [exact Hb|]. now constructor.
    + apply Forall_app. split.
      * destruct buf; cbn [Spec.flushed]; [constructor|].
        constructor; [now apply tagSafe_wrapList | constructor].
      * constructor; [exact Hx|]. apply IH; [constructor | exact Hrest].
Qed.

Lemma Markdown_tagSafe (content : string) : Spec.tagSafe (Page.Markdown content) = true.
Proof.
  unfold Page.Markdown, JS.join. rewrite mergeFragments_group.
  apply tagSafe_concat, tagSafe_groupFrom; [constructor|].
  apply Forall_map, Forall_forall. intros line _.
  eapply wrapped_tagSafe, renderLine_wrapped.
Qed.

(** C6. The escaping replaces each occurrence of the five characters
    once, by its entity, and leaves every other character as it is: it
    is the character-by-character replacement, so [&] of an entity it
    wrote is never escaped again and none of [<], [>], the double quote
    and the apostrophe is left in its result.  Every fragment of the
    renderer is the line-break marker or the escaped text of its line
    put between the tags afterwards, and no text [<script>] occurs in
    the rendered HTML, whatever the input. *)
Theorem escapeHtml_once_per_character :
  (forall s, Page.escapeHtml s = Spec.escapeEach s) /\
  (Spec.escapeChar "&" = "&amp;" /\ Spec.escapeChar "<" = "&lt;" /\
   Spec.escapeChar ">" = "&gt;" /\ Spec.escapeChar JS.DQUOTE = "&quot;" /\
   Spec.escapeChar "'" = "&#039;") /\
  (forall c, c <> "&"%char -> Spec.special c = false ->
     Spec.escapeChar c = String c "") /\
  (forall s, Spec.allChars (fun c => negb (Spec.special c)) (Page.escapeHtml s) = true) /\
  (forall line, Spec.wrapped line (Page.renderLine line)) /\
  (forall content, ~ Spec.occursIn "<script>" (Page.Markdown content)) /\
  Page.escapeHtml "<script>" = "&lt;script&gt;" /\
  Page.escapeHtml "&amp;" = "&amp;amp;" /\
  Page.Markdown "<script>alert('x')</script>" =
    "<p>&lt;script&gt;alert(&#039;x&#039;)&lt;/script&gt;</p>".
Proof.
  split; [exact escapeHtml_each|].
  split; [repeat split|].
  split.
  { intros c Hc Hs. unfold Spec.special in Hs. unfold Spec.escapeChar.
    apply Ascii.eqb_neq in Hc. rewrite Hc.
    destruct (Ascii.eqb c "<"); [discriminate|].
    destruct (Ascii.eqb c ">"); [discriminate|].
    destruct (Ascii.eqb c JS.DQUOTE); [discriminate|].
    destruct (Ascii.eqb c "'"); [discriminate | reflexivity]. }
  split; [intros s; rewrite escapeHtml_each; apply escapeEach_plain|].
  split; [exact renderLine_wrapped|].
  split.
  { intros content (a & b & E).
    pose proof (Markdown_tagSafe content) as H.
    rewrite E, tagSafe_script in H. discriminate. }
  repeat split.
Qed.

Lemma escapeHtml_once_per_character_witness :
  Spec.escapeChar "a" = "a" /\
  ~ Spec.occursIn "<script>" (Page.Markdown "# <script>").
Proof.
  pose proof escapeHtml_once_per_character as (_ & _ & Hplain & _ & _ & Hscript & _).
  split.
  - apply (Hplain "a"%char); [discriminate | reflexivity].
  - apply (Hscript "# <script>").
Defined.

(** *** Runs of list lines *)

Lemma prefix_head (a : ascii) (p l : string) :
  prefix (String a p) l = true -> exists rest, l = String a rest.
Proof.
  destruct l as [|c rest]; cbn [prefix]; [discriminate|].
  destruct (ascii_dec a c) as [->|]; [|discriminate]. intros _. now exists rest.
Qed.

Lemma heading_not_list (line p : string) :
  JS.startsWith line (String "#" p) = true -> Spec.isListLine line = false.
Proof.
  intros H. apply prefix_head in H as [rest ->]. reflexivity.
Qed.

Lemma renderLine_list (line : string) :
  Spec.isListLine line = true ->
  Page.renderLine line = "<li>" ++ Spec.escapeEach (JS.slice line 2) ++ "</li>".
Proof.
  unfold Page.renderLine. intros H.
  destruct (JS.startsWith line "### ") eqn:E3;
    [apply heading_not_list in E3; congruence|].
  destruct (JS.startsWith line "## ") eqn:E2;
    [apply heading_not_list in E2; congruence|].
  destruct (JS.startsWith line "# ") eqn:E1;
    [apply heading_not_list in E1; congruence|].
  unfold Spec.isListLine in H. rewrite H, escapeHtml_each. reflexivity.
Qed.

Lemma renderLine_isLi (line : string) :
  JS.startsWith (Page.renderLine line) "<li>" = Spec.isListLine line.
Proof.
  destruct (Spec.isListLine line) eqn:E.
  - rewrite (renderLine_list line E). unfold JS.startsWith.
    cbn [append prefix]. cbn. apply prefix_nil.
  - unfold Page.renderLine. unfold Spec.isListLine in E. rewrite E.
    destruct (JS.startsWith line "### "); [reflexivity|].
    destruct (JS.startsWith line "## "); [reflexivity|].
    destruct (JS.startsWith line "# "); [reflexivity|].
    destruct (JS.trim line =? ""); reflexivity.
Qed.

Lemma renderLine_not_ul (line : string) :
  JS.startsWith (Page.renderLine line) "<ul>" = false.
Proof.
  unfold Page.renderLine.
  destruct (JS.startsWith line "### "); [reflexivity|].
  destruct (JS.startsWith line "## "); [reflexivity|].
  destruct (JS.startsWith line "# "); [reflexivity|].
  destruct (JS.startsWith line "- "); [reflexivity|].
  destruct (JS.trim line =? ""); reflexivity.
Qed.

Lemma wrapList_is_ul (buf : list string) :
  JS.startsWith (Spec.wrapList buf) "<ul>" = true.
Proof. unfold JS.startsWith, Spec.wrapList. cbn. apply prefix_nil. Qed.

Lemma groupFrom_items (lis rest buf : list string) :
  Forall (fun f => JS.startsWith f "<li>" = true) lis ->
  Spec.groupFrom buf (lis ++ rest) = Spec.groupFrom (buf ++ lis) rest.
Proof.
  intros H. revert buf. induction H as [|f lis Hf Hl IH]; intros buf.
  - now rewrite app_nil_r.
  - cbn [app Spec.groupFrom]. rewrite Hf, IH, <- app_assoc. reflexivity.
Qed.

Lemma groupFrom_break (p rest buf : list string) (x : string) :
  JS.startsWith x "<li>" = false ->
  Spec.groupFrom buf (p ++ x :: rest) =
  (Spec.groupFrom buf (p ++ [x]) ++ Spec.groupFrom [] rest)%list.
Proof.
  intros Hx. revert buf. induction p as [|y p IH]; intros buf; cbn [app Spec.groupFrom].
  - rewrite Hx. cbn [Spec.flushed]. rewrite <- app_assoc. reflexivity.
  - destruct (JS.startsWith y "<li>"); [apply IH|].
    rewrite IH, <- app_assoc. reflexivity.
Qed.

Lemma groupFrom_closed_run (run post : list string) :
  run <> [] ->
  (forall x post', post = x :: post' -> JS.startsWith x "<li>" = false) ->
  Spec.groupFrom run post = (Spec.wrapList run :: Spec.groupFrom [] post)%list.
Proof.
  intros Hne Hpost. destruct post as [|x post']; cbn [Spec.groupFrom].
  - destruct run; [contradiction | reflexivity].
  - rewrite (Hpost x post' eq_refl). destruct run; [contradiction | reflexivity].
Qed.

Lemma groupFrom_run (pre run post : list string) :
  (forall pre' x, pre = (pre' ++ [x])%list -> JS.startsWith x "<li>" = false) ->
  run <> [] ->
  Forall (fun f => JS.startsWith f "<li>" = true) run ->
  (forall x post', post = x :: post' -> JS.startsWith x "<li>" = false) ->
  Spec.groupFrom [] (pre ++ run ++ post) =
  (Spec.groupFrom [] pre ++ [Spec.wrapList run] ++ Spec.groupFrom [] post)%list.
Proof.
  intros Hpre Hne Hrun Hpost.
  assert (Htail : Spec.groupFrom [] (run ++ post) =
                  ([Spec.wrapList run] ++ Spec.groupFrom [] post)%list).
  { rewrite groupFrom_items by exact Hrun. cbn [app].
    now apply groupFrom_closed_run. }
  destruct pre as [|y pre0] using rev_ind; [exact Htail|].
  rewrite <- app_assoc. cbn [app].
  rewrite groupFrom_break by (eapply Hpre; reflexivity).
  rewrite Htail. reflexivity.
Qed.

Lemma countLists_app (a b : list string) :
  Spec.countLists (a ++ b) = (Spec.countLists a + Spec.countLists b)%nat.
Proof. unfold Spec.countLists. now rewrite filter_app, length_app. Qed.

Lemma countLists_group (lines buf : list string) :
  Spec.countLists (Spec.groupFrom buf (map Page.renderLine lines)) =
  match buf with
  | [] => Spec.countRuns false lines
  | _ => S (Spec.countRuns true lines)
  end.
Proof.
  revert buf. induction lines as [|l ls IH]; intros buf;
    cbn [map Spec.groupFrom Spec.countRuns].
  - destruct buf; [reflexivity|].
    unfold Spec.countLists. cbn [Spec.flushed filter]. now rewrite wrapList_is_ul.
  - rewrite renderLine_isLi. destruct (Spec.isListLine l).
    + rewrite IH. destruct buf; reflexivity.
    + rewrite countLists_app. unfold Spec.countLists at 2. cbn [filter].
      rewrite renderLine_not_ul. fold (Spec.countLists (Spec.groupFrom [] (map Page.renderLine ls))).
      rewrite IH. destruct buf; [reflexivity|].
      unfold Spec.countLists. cbn [Spec.flushed filter]. now rewrite wrapList_is_ul.
Qed.

Lemma wrapList_lines (run : list string) :
  Forall (fun l => Spec.isListLine l = true) run ->
  Spec.wrapList (map Page.renderLine run) = Spec.listOf run.
Proof.
  intros H. unfold Spec.listOf. f_equal. apply map_ext_in.
  intros l Hl. apply renderLine_list. rewrite Forall_forall in H. now apply H.
Qed.

Lemma mergeFragments_run (pre run post : list string) :
  (forall pre' x, pre = (pre' ++ [x])%list -> Spec.isListLine x = false) ->
  run <> [] ->
  Forall (fun l => Spec.isListLine l = true) run ->
  (forall x post', post = x :: post' -> Spec.isListLine x = false) ->
  Page.mergeFragments (map Page.renderLine (pre ++ run ++ post)) =
  (Page.mergeFragments (map Page.renderLine pre) ++ [Spec.listOf run] ++
   Page.mergeFragments (map Page.renderLine post))%list.
Proof.
  intros Hpre Hne Hrun Hpost.
  rewrite !mergeFragments_group, !map_app, <- (wrapList_lines run Hrun).
  apply groupFrom_run.
  - intros pre' x E.
    destruct pre as [|y pre0] using rev_ind.
    + destruct pre'; discriminate.
    + rewrite map_app in E. cbn [map] in E.
      apply app_inj_tail in E as [_ <-].
      rewrite renderLine_isLi. eapply Hpre. reflexivity.
  - destruct run; [contradiction | discriminate].
  - apply Forall_map. eapply Forall_impl; [|exact Hrun].
    intros l Hl. now rewrite renderLine_isLi.
  - intros x post' E. destruct post as [|y post0]; [discriminate|].
    cbn [map] in E. injection E as <- _.
    rewrite renderLine_isLi. eapply Hpost. reflexivity.
Qed.

(** C7. Where the lines of the input split into [pre], a non-empty run
    of list lines, and [post], the run being maximal ([pre] does not end
    and [post] does not start with a list line), the rendering is that
    of [pre], then one enclosing list holding exactly the items of the
    run, then that of [post].  The number of enclosing lists is the
    number of maximal runs.  Two runs with one non-list line between
    them, a blank line included, give two lists with the fragment of
    that line between them. *)
Theorem list_runs_become_single_lists :
  (forall content pre run post,
     JS.splitLines content = (pre ++ run ++ post)%list ->
     (forall pre' x, pre = (pre' ++ [x])%list -> Spec.isListLine x = false) ->
     run <> [] ->
     Forall (fun l => Spec.isListLine l = true) run ->
     (forall x post', post = x :: post' -> Spec.isListLine x = false) ->
     Page.mergeFragments (map Page.renderLine (JS.splitLines content)) =
       (Page.mergeFragments (map Page.renderLine pre) ++ [Spec.listOf run] ++
        Page.mergeFragments (map Page.renderLine post))%list /\
     Page.Markdown content =
       JS.join (Page.mergeFragments (map Page.renderLine pre)) "" ++
       Spec.listOf run ++
       JS.join (Page.mergeFragments (map Page.renderLine post)) "") /\
  (forall content,
     Spec.countLists (Page.mergeFragments (map Page.renderLine (JS.splitLines content))) =
     Spec.countRuns false (JS.splitLines content)) /\
  (forall r1 x r2,
     r1 <> [] -> r2 <> [] ->
     Forall (fun l => Spec.isListLine l = true) r1 ->
     Forall (fun l => Spec.isListLine l = true) r2 ->
     Spec.isListLine x = false ->
     Page.mergeFragments (map Page.renderLine (r1 ++ x :: r2)) =
       [Spec.listOf r1; Page.renderLine x; Spec.listOf r2]) /\
  Spec.isListLine "" = false /\ Page.renderLine "" = "<br/>".
Proof.
  split; [|split; [|split]].
  - intros content pre run post E Hpre Hne Hrun Hpost.
    assert (Hm := mergeFragments_run pre run post Hpre Hne Hrun Hpost).
    split; [rewrite E; exact Hm|].
    unfold Page.Markdown. cbv zeta. rewrite E, Hm. unfold JS.join.
    rewrite !concat_app. cbn [concat]. reflexivity.
  - intros content. rewrite mergeFragments_group. apply countLists_group.
  - intros r1 x r2 H1 H2 Hr1 Hr2 Hx.
    assert (Hm := mergeFragments_run [] r1 (x :: r2)).
    cbn [app map] in Hm. rewrite Hm; try assumption.
    + assert (Hn := mergeFragments_run [x] r2 []).
      rewrite app_nil_r in Hn. cbn [app map] in Hn. rewrite Hn; try assumption.
      * rewrite !mergeFragments_group. cbn [map Spec.groupFrom].
        rewrite renderLine_isLi, Hx. reflexivity.
      * intros pre' y E. destruct pre' as [|z pre'].
        -- injection E as <-. exact Hx.
        -- destruct pre'; discriminate.
      * intros y post' E. discriminate.
    + intros pre' y E. destruct pre'; discriminate.
    + intros y post' E. injection E as <- _. exact Hx.
  - split; reflexivity.
Qed.

Lemma list_runs_become_single_lists_witness :
  Page.Markdown Samples.notes =
    "" ++ "<ul><li>a</li><li>b</li></ul>" ++ "<p>x</p><ul><li>c</li></ul>" /\
  Page.mergeFragments (map Page.renderLine (["- a"; "- b"] ++ "" :: ["- c"])) =
    ["<ul><li>a</li><li>b</li></ul>"; "<br/>"; "<ul><li>c</li></ul>"].
Proof.
  pose proof list_runs_become_single_lists as (Hrun & _ & Htwo & _).
  split.
  - apply (Hrun Samples.notes [] ["- a"; "- b"] ["x"; "- c"]).
    + reflexivity.
    + intros pre' x E. destruct pre'; discriminate.
    + discriminate.
    + repeat constructor.
    + intros x post' E. injection E as <- _. reflexivity.
  - apply (Htwo ["- a"; "- b"] "" ["- c"]).
    + discriminate.
    + discriminate.
    + repeat constructor.
    + repeat constructor.
    + reflexivity.
Defined.

Lemma fallback_top_sorted_by_impact_effort_witness :
  top (Route.buildFallbackSuggestions
         [Samples.wild; Samples.plain; Samples.dated] Route.emptyHealth None) =
    map Route.formatTop [Samples.plain; Samples.dated; Samples.wild] /\
  In Samples.plain (Route.incomplete [Samples.wild; Samples.plain]).
Proof.
  pose proof (fallback_top_sorted_by_impact_effort
                [Samples.wild; Samples.plain; Samples.dated] Route.emptyHealth None)
    as (Htop & _).
  pose proof (fallback_top_sorted_by_impact_effort
                [Samples.wild; Samples.plain] Route.emptyHealth None)
    as (_ & _ & _ & Hin & _).
  split.
  - exact Htop.
  - apply (proj2 (Hin Samples.plain)). split; [right; left; reflexivity | discriminate].
Defined.

(** ** Further properties of the escaping *)

Lemma escapeEach_app (a b : string) :
  Spec.escapeEach (a ++ b) = Spec.escapeEach a ++ Spec.escapeEach b.
Proof.
  induction a as [|c a IH]; [reflexivity|].
  cbn [append Spec.escapeEach]. rewrite IH, append_assoc. reflexivity.
Qed.

(** X1. Escaping a concatenation is concatenating the escapings: the
    result for a text never depends on what stands next to it. *)
Theorem escapeHtml_distributes_over_append :
  forall a b : string,
    Page.escapeHtml (a ++ b) = Page.escapeHtml a ++ Page.escapeHtml b.
Proof. intros a b. rewrite !escapeHtml_each. apply escapeEach_app. Qed.

Lemma append_length (a b : string) :
  String.length (a ++ b) = (String.length a + String.length b)%nat.
Proof. induction a as [|c a IH]; cbn; [reflexivity | now rewrite IH]. Qed.

Lemma escapeChar_length (c : ascii) :
  (1 <= String.length (Spec.escapeChar c) <= 6)%nat /\
  (String.length (Spec.escapeChar c) = 1%nat ->
   (negb (Ascii.eqb c "&") && negb (Spec.special c)) = true).
Proof.
  unfold Spec.escapeChar, Spec.special.
  destruct (Ascii.eqb c "&"); [cbn; split; [lia | discriminate]|].
  destruct (Ascii.eqb c "<"); [cbn; split; [lia | discriminate]|].
  destruct (Ascii.eqb c ">"); [cbn; split; [lia | discriminate]|].
  destruct (Ascii.eqb c JS.DQUOTE); [cbn; split; [lia | discriminate]|].
  destruct (Ascii.eqb c "'"); [cbn; split; [lia | discriminate]|].
  cbn. split; [lia | reflexivity].
Qed.

Lemma escapeChar_of_plain (c : ascii) :
  (negb (Ascii.eqb c "&") && negb (Spec.special c)) = true ->
  Spec.escapeChar c = String c "".
Proof.
  unfold Spec.escapeChar, Spec.special.
  destruct (Ascii.eqb c "&"); [discriminate|].
  destruct (Ascii.eqb c "<"); [discriminate|].
  destruct (Ascii.eqb c ">"); [discriminate|].
  destruct (Ascii.eqb c JS.DQUOTE); [discriminate|].
  destruct (Ascii.eqb c "'"); [discriminate | reflexivity].
Qed.

Lemma escapeEach_length (s : string) :
  (String.length s <= String.length (Spec.escapeEach s) <= 6 * String.length s)%nat /\
  (String.length (Spec.escapeEach s) = String.length s -> Spec.plainText s = true).
Proof.
  induction s as [|c s [IHb IHp]]; [cbn; split; [lia | reflexivity]|].
  cbn [Spec.escapeEach String.length]. rewrite append_length.
  destruct (escapeChar_length c) as [Hc Hone].
  split; [lia|].
  intros E. unfold Spec.plainText. cbn [Spec.allChars].
  rewrite Hone by lia. apply IHp. lia.
Qed.

(** X2. The escaped text is never shorter than the text and at most six
    times as long. *)
Theorem escapeHtml_length_bounds :
  forall s : string,
    (String.length s <= String.length (Page.escapeHtml s) <= 6 * String.length s)%nat.
Proof. intros s. rewrite escapeHtml_each. apply escapeEach_length. Qed.

(** X3. Escaping leaves a text as it is exactly when the text holds
    none of the five characters [&], [<], [>], double quote and
    apostrophe. *)
Theorem escapeHtml_fixes_exactly_plain_text :
  forall s : string, Page.escapeHtml s = s <-> Spec.plainText s = true.
Proof.
  intros s. rewrite escapeHtml_each. split.
  - intros E. apply escapeEach_length. now rewrite E.
  - unfold Spec.plainText. induction s as [|c s IH]; [reflexivity|].
    cbn [Spec.allChars Spec.escapeEach]. intros H.
    apply andb_true_iff in H as [Hc Hs].
    rewrite (escapeChar_of_plain c Hc), (IH Hs). reflexivity.
Qed.

Lemma unescape_escapeChar (c : ascii) (t : string) :
  Spec.unescape_from 0 (Spec.escapeChar c ++ t) = String c (Spec.unescape_from 0 t).
Proof.
  unfold Spec.escapeChar.
  destruct (Ascii.eqb_spec c "&") as [->|H1];
    [cbn; rewrite ?prefix_nil; reflexivity|].
  destruct (Ascii.eqb_spec c "<") as [->|H2];
    [cbn; rewrite ?prefix_nil; reflexivity|].
  destruct (Ascii.eqb_spec c ">") as [->|H3];
    [cbn; rewrite ?prefix_nil; reflexivity|].
  destruct (Ascii.eqb_spec c JS.DQUOTE) as [->|H4];
    [cbn; rewrite ?prefix_nil; reflexivity|].
  destruct (Ascii.eqb_spec c "'") as [->|H5];
    [cbn; rewrite ?prefix_nil; reflexivity|].
  cbn [append Spec.unescape_from].
  apply Ascii.eqb_neq in H1. rewrite H1. reflexivity.
Qed.

Lemma unescape_escapeEach (s : string) : Spec.unescape (Spec.escapeEach s) = s.
Proof.
  unfold Spec.unescape. induction s as [|c s IH]; [reflexivity|].
  cbn [Spec.escapeEach]. rewrite unescape_escapeChar, IH. reflexivity.
Qed.

(** X4. Nothing is lost in escaping: reading the five entities back
    returns the text, so two different texts never have the same
    escaping. *)
Theorem escapeHtml_is_injective :
  (forall s : string, Spec.unescape (Page.escapeHtml s) = s) /\
  (forall s t : string, Page.escapeHtml s = Page.escapeHtml t -> s = t).
Proof.
  assert (H : forall s, Spec.unescape (Page.escapeHtml s) = s)
    by (intros s; rewrite escapeHtml_each; apply unescape_escapeEach).
  split; [exact H|].
  intros s t E. rewrite <- (H s), <- (H t), E. reflexivity.
Qed.

Lemma escapeHtml_is_injective_witness :
  Spec.unescape (Page.escapeHtml "a<b & 'c'") = "a<b & 'c'" /\
  "&lt;" = "&lt;".
Proof.
  pose proof escapeHtml_is_injective as [Hback Hinj].
  split.
  - apply (Hback "a<b & 'c'").
  - apply (Hinj "&lt;" "&lt;"). reflexivity.
Defined.

Lemma escapeHtml_fixes_exactly_plain_text_witness :
  Page.escapeHtml "Inbox sweep: archive or assign 10 emails." =
  "Inbox sweep: archive or assign 10 emails.".
Proof.
  apply (proj2 (escapeHtml_fixes_exactly_plain_text
                  "Inbox sweep: archive or assign 10 emails.")).
  reflexivity.
Defined.

(** ** Further properties of the renderer *)

Lemma wrapList_not_li (buf : list string) :
  JS.startsWith (Spec.wrapList buf) "<li>" = false.
Proof. reflexivity. Qed.

Lemma groupFrom_no_bare_item (frags buf : list string) :
  Forall (fun f => JS.startsWith f "<li>" = false) (Spec.groupFrom buf frags).
Proof.
  revert buf. induction frags as [|f fs IH]; intros buf; cbn [Spec.groupFrom].
  - destruct buf; cbn [Spec.flushed]; repeat constructor.
  - destruct (JS.startsWith f "<li>") eqn:E; [apply IH|].
    apply Forall_app. split.
    + destruct buf; cbn [Spec.flushed]; repeat constructor.
    + constructor; [exact E | apply IH].
Qed.

(** X5. Whatever fragments the second loop is given, no list item is
    left outside an enclosing list: none of the merged fragments starts
    with [<li>]. *)
Theorem merged_fragments_have_no_bare_item :
  forall out : list string,
    Forall (fun f => JS.startsWith f "<li>" = false) (Page.mergeFragments out).
Proof. intros out. rewrite mergeFragments_group. apply groupFrom_no_bare_item. Qed.

Lemma groupFrom_keeps_others (lines buf : list string) :
  filter (fun f => negb (JS.startsWith f "<ul>"))
         (Spec.groupFrom buf (map Page.renderLine lines)) =
  map Page.renderLine (filter (fun l => negb (Spec.isListLine l)) lines).
Proof.
  assert (Hfl : forall b, filter (fun f => negb (JS.startsWith f "<ul>")) (Spec.flushed b) = []).
  { intros [|x b]; [reflexivity|]. cbn [Spec.flushed filter].
    now rewrite wrapList_is_ul. }
  revert buf. induction lines as [|l ls IH]; intros buf; cbn [map Spec.groupFrom filter].
  - apply Hfl.
  - rewrite renderLine_isLi. destruct (Spec.isListLine l); cbn [negb]; [apply IH|].
    rewrite filter_app, Hfl. cbn [app filter]. rewrite renderLine_not_ul. cbn [negb map].
    now rewrite IH.
Qed.

(** X6. Apart from the enclosing lists, the rendering holds exactly the
    fragments of the lines that are not list lines, in the order of the
    lines. *)
Theorem other_lines_rendered_in_order :
  forall content : string,
    filter (fun f => negb (JS.startsWith f "<ul>"))
           (Page.mergeFragments (map Page.renderLine (JS.splitLines content))) =
    map Page.renderLine
        (filter (fun l => negb (Spec.isListLine l)) (JS.splitLines content)).
Proof. intros content. rewrite mergeFragments_group. apply groupFrom_keeps_others. Qed.

Lemma groupFrom_without_items (frags : list string) :
  Forall (fun f => JS.startsWith f "<li>" = false) frags ->
  Spec.groupFrom [] frags = frags.
Proof.
  induction 1 as [|f fs Hf Hfs IH]; [reflexivity|].
  cbn [Spec.groupFrom]. rewrite Hf. cbn [Spec.flushed app]. now rewrite IH.
Qed.

(** X7. A text without any list line is rendered line by line: the
    result is the fragments of its lines put one after the other. *)
Theorem Markdown_without_list_lines :
  forall content : string,
    Forall (fun l => Spec.isListLine l = false) (JS.splitLines content) ->
    Page.Markdown content = concat "" (map Page.renderLine (JS.splitLines content)).
Proof.
  intros content H. unfold Page.Markdown, JS.join.
  rewrite mergeFragments_group, groupFrom_without_items; [reflexivity|].
  apply Forall_map. eapply Forall_impl; [|exact H].
  intros l Hl. now rewrite renderLine_isLi.
Qed.

Lemma Markdown_without_list_lines_witness :
  Page.Markdown ("# Plan" ++ JS.nl ++ JS.nl ++ "rest & walk") =
  "<h1>Plan</h1><br/><p>rest &amp; walk</p>".
Proof.
  apply (Markdown_without_list_lines ("# Plan" ++ JS.nl ++ JS.nl ++ "rest & walk")).
  repeat constructor.
Defined.

(** ** Splitting into lines and joining lines *)

Lemma splitLines_nonempty (s : string) : JS.splitLines s <> [].
Proof.
  induction s as [|c s IH]; [discriminate|].
  cbn [JS.splitLines].
  destruct (Ascii.eqb c JS.LF); [discriminate|].
  destruct (JS.splitLines s) as [|l ls]; [contradiction|].
  destruct (Ascii.eqb c JS.CR); [|discriminate].
  destruct s as [|c' s']; [discriminate|].
  destruct (Ascii.eqb c' JS.LF); discriminate.
Qed.

Lemma join_cons_cons (x y : string) (l : list string) (sep : string) :
  JS.join (x :: y :: l) sep = x ++ sep ++ JS.join (y :: l) sep.
Proof. reflexivity. Qed.

Lemma join_grow_head (c : ascii) (l : string) (ls : list string) (sep : string) :
  JS.join (String c l :: ls) sep = String c (JS.join (l :: ls) sep).
Proof. destruct ls; reflexivity. Qed.

Lemma join_splitLines (s : string) :
  Spec.allChars (fun c => negb (Ascii.eqb c JS.CR)) s = true ->
  JS.join (JS.splitLines s) JS.nl = s.
Proof.
  induction s as [|c s IH]; [reflexivity|].
  cbn [Spec.allChars JS.splitLines]. intros H.
  apply andb_true_iff in H as [Hc Hs]. apply negb_true_iff in Hc. rewrite Hc.
  specialize (IH Hs). pose proof (splitLines_nonempty s) as Hne.
  destruct (JS.splitLines s) as [|l ls]; [contradiction|].
  destruct (Ascii.eqb_spec c JS.LF) as [->|_].
  - rewrite join_cons_cons, IH. reflexivity.
  - rewrite join_grow_head, IH. reflexivity.
Qed.

Lemma splitLines_app_nl (x r : string) :
  Spec.allChars (fun c => negb (Ascii.eqb c JS.CR)) x = true ->
  JS.splitLines (x ++ JS.nl ++ r) = (JS.splitLines x ++ JS.splitLines r)%list.
Proof.
  induction x as [|c x IH]; [reflexivity|].
  cbn [Spec.allChars]. intros H.
  apply andb_true_iff in H as [Hc Hx]. apply negb_true_iff in Hc.
  specialize (IH Hx). cbn [append JS.splitLines]. rewrite Hc, IH.
  pose proof (splitLines_nonempty x) as Hne.
  destruct (Ascii.eqb c JS.LF); [reflexivity|].
  destruct (JS.splitLines x) as [|l ls]; [contradiction | reflexivity].
Qed.

Lemma splitLines_single (x : string) :
  Spec.singleLine x = true -> JS.splitLines x = [x].
Proof.
  unfold Spec.singleLine. induction x as [|c x IH]; [reflexivity|].
  cbn [Spec.allChars JS.splitLines]. intros H.
  apply andb_true_iff in H as [Hc Hx]. apply andb_true_iff in Hc as [H1 H2].
  apply negb_true_iff in H1, H2. rewrite H1, H2, (IH Hx). reflexivity.
Qed.

Lemma singleLine_noCR (x : string) :
  Spec.singleLine x = true ->
  Spec.allChars (fun c => negb (Ascii.eqb c JS.CR)) x = true.
Proof.
  unfold Spec.singleLine. induction x as [|c x IH]; [reflexivity|].
  cbn [Spec.allChars]. intros H. apply andb_true_iff in H as [Hc Hx].
  apply andb_true_iff in Hc as [_ H2]. rewrite H2. now apply IH.
Qed.

Lemma splitLines_join_flat (xs : list string) :
  xs <> [] ->
  Forall (fun x => Spec.allChars (fun c => negb (Ascii.eqb c JS.CR)) x = true) xs ->
  JS.splitLines (JS.join xs JS.nl) = flat_map JS.splitLines xs.
Proof.
  intros Hne H. induction H as [|x xs Hx Hxs IH]; [contradiction|].
  destruct xs as [|y xs].
  - cbn. now rewrite app_nil_r.
  - rewrite join_cons_cons, splitLines_app_nl by exact Hx.
    rewrite IH by discriminate. reflexivity.
Qed.

(** X8. Splitting and joining are inverse to each other.  Joining the
    lines of a text with line feeds gives the text back when it holds
    no carriage return; splitting the join of one or more texts, each
    without line feed and carriage return, gives these texts back; and
    no line of any split ever holds a line feed. *)
Theorem splitLines_join_round_trip :
  (forall s : string,
     Spec.allChars (fun c => negb (Ascii.eqb c JS.CR)) s = true ->
     JS.join (JS.splitLines s) JS.nl = s) /\
  (forall ls : list string,
     ls <> [] -> Forall (fun l => Spec.singleLine l = true) ls ->
     JS.splitLines (JS.join ls JS.nl) = ls) /\
  (forall s : string,
     JS.splitLines s <> [] /\
     Forall (fun l => Spec.allChars (fun c => negb (Ascii.eqb c JS.LF)) l = true)
            (JS.splitLines s)).
Proof.
  split; [exact join_splitLines|]. split.
  - intros ls Hne H. rewrite splitLines_join_flat; [|exact Hne|].
    + clear Hne. induction H as [|l ls Hl Hls IH]; [reflexivity|].
      cbn [flat_map]. rewrite (splitLines_single l Hl), IH. reflexivity.
    + eapply Forall_impl; [|exact H]. exact singleLine_noCR.
  - intros s. split; [apply splitLines_nonempty|].
    induction s as [|c s IH]; [repeat constructor|].
    cbn [JS.splitLines].
    assert (Hkeep : Ascii.eqb c JS.LF = false ->
      Forall (fun l => Spec.allChars (fun c => negb (Ascii.eqb c JS.LF)) l = true)
        match JS.splitLines s with
        | l :: ls => String c l :: ls
        | [] => [String c ""]
        end).
    { intros Hc. destruct (JS.splitLines s) as [|l ls].
      - constructor; [cbn [Spec.allChars]; rewrite Hc; reflexivity | constructor].
      - inversion IH; subst. constructor; [|assumption].
        cbn [Spec.allChars]. rewrite Hc. assumption. }
    destruct (Ascii.eqb c JS.LF) eqn:Hc; [constructor; [reflexivity | exact IH]|].
    destruct (Ascii.eqb c JS.CR); [|now apply Hkeep].
    destruct s as [|c' s']; [now apply Hkeep|].
    destruct (Ascii.eqb c' JS.LF) eqn:Hc'; [|now apply Hkeep].
    constructor; [reflexivity|].
    cbn [JS.splitLines] in IH. rewrite Hc' in IH. now inversion IH.
Qed.

Lemma splitLines_join_round_trip_witness :
  JS.join (JS.splitLines ("a" ++ JS.nl ++ "b")) JS.nl = "a" ++ JS.nl ++ "b" /\
  JS.splitLines (JS.join ["- x"; ""; "y"] JS.nl) = ["- x"; ""; "y"].
Proof.
  pose proof splitLines_join_round_trip as (Hjoin & Hsplit & _).
  split.
  - apply (Hjoin ("a" ++ JS.nl ++ "b")). reflexivity.
  - apply (Hsplit ["- x"; ""; "y"]); [discriminate | repeat constructor].
Defined.

(** ** Further properties of the two orderings *)

Section SortFacts.
Context {A : Type} (key : A -> Z) (cmp : A -> A -> Z).
Hypothesis cmp_key : forall a b, cmp a b = (key b - key a)%Z.

Lemma sort_of_sorted (l : list A) :
  StronglySorted (Spec.descending key) l -> JS.sort cmp l = l.
Proof.
  induction 1 as [|x l Hs IH Hx]; [reflexivity|].
  cbn [JS.sort]. rewrite IH. destruct l as [|y l']; [reflexivity|].
  cbn [JS.insert]. rewrite cmp_key.
  inversion Hx as [|? ? Hy _]; subst. unfold Spec.descending in Hy.
  destruct (Z.leb_spec (key y - key x) 0); [reflexivity | lia].
Qed.

Lemma sort_head_greatest (l : list A) (x : A) :
  In x l ->
  exists h rest, JS.sort cmp l = h :: rest /\ In h l /\ (key x <= key h)%Z.
Proof.
  intros Hin.
  pose proof (sort_perm cmp l) as Hp.
  pose proof (sort_sorted key cmp cmp_key l) as Hs.
  destruct (JS.sort cmp l) as [|h rest] eqn:E.
  - apply Permutation_nil in Hp. subst. contradiction.
  - exists h, rest. split; [reflexivity|]. split.
    + eapply Permutation_in; [exact Hp | left; reflexivity].
    + apply Permutation_sym in Hp. apply (Permutation_in _ Hp) in Hin.
      destruct Hin as [->|Hin]; [lia|].
      apply StronglySorted_inv in Hs as [_ Hall].
      rewrite Forall_forall in Hall. apply (Hall x Hin).
Qed.
End SortFacts.

Lemma sort_map {A : Type} (cmp : A -> A -> Z) (f : A -> A) (l : list A) :
  (forall a b, cmp (f a) (f b) = cmp a b) ->
  JS.sort cmp (map f l) = map f (JS.sort cmp l).
Proof.
  intros Hf.
  assert (Hins : forall x l0, JS.insert cmp (f x) (map f l0) = map f (JS.insert cmp x l0)).
  { intros x l0. induction l0 as [|y l0 IH]; [reflexivity|].
    cbn [map JS.insert]. rewrite Hf. destruct (cmp x y <=? 0)%Z; [reflexivity|].
    cbn [map]. now rewrite IH. }
  induction l as [|x l IH]; [reflexivity|].
  cbn [map JS.sort]. rewrite IH. apply Hins.
Qed.

(** X9. Putting a displayed list in display order again changes
    nothing. *)
Theorem prioritized_idempotent :
  forall ts : list Task, Page.prioritized (Page.prioritized ts) = Page.prioritized ts.
Proof.
  intros ts. unfold Page.prioritized at 1.
  apply (sort_of_sorted Page.score); [reflexivity|].
  apply sort_sorted. reflexivity.
Qed.

(** X10. Ticking a task off does not move it: the display order of the
    list after [toggleDone] is the display order of the list before,
    with the same toggle applied. *)
Theorem toggleDone_keeps_display_order :
  forall (i : string) (st : Page.State),
    Page.prioritized (Page.tasks (Page.toggleDone i st)) =
    Page.tasks (Page.toggleDone i
      (Page.mkState (Page.prioritized (Page.tasks st)) (Page.taskTitle st)
         (Page.taskEffort st) (Page.taskImpact st) (Page.taskDue st))).
Proof.
  intros i st. cbn [Page.toggleDone Page.tasks]. unfold Page.prioritized.
  apply sort_map. intros a b.
  destruct (id a =? i), (id b =? i); reflexivity.
Qed.

(** X11. A task of the greatest score is displayed first: the first
    displayed task is a task of the list and no task of the list
    scores higher. *)
Theorem prioritized_head_has_greatest_score :
  forall (ts : list Task) (t : Task),
    In t ts ->
    exists h rest,
      Page.prioritized ts = h :: rest /\ In h ts /\ (Page.score t <= Page.score h)%Z.
Proof.
  intros ts t Hin. unfold Page.prioritized.
  apply (sort_head_greatest Page.score); [reflexivity | exact Hin].
Qed.

Lemma prioritized_head_has_greatest_score_witness :
  exists h rest,
    Page.prioritized [Samples.plain; Samples.dated] = h :: rest /\
    In h [Samples.plain; Samples.dated] /\
    (Page.score Samples.plain <= Page.score h)%Z.
Proof.
  apply (prioritized_head_has_greatest_score [Samples.plain; Samples.dated] Samples.plain).
  left. reflexivity.
Defined.

(** X12. The first of the fallback's top priorities is an incomplete
    task of the greatest [impact*2 - effort] among the incomplete
    tasks. *)
Theorem fallback_top_starts_with_greatest :
  forall (tasks : list Task) (health : Health) (note : option string) (t : Task),
    In t tasks -> done t <> Some true ->
    exists h,
      hd_error (top (Route.buildFallbackSuggestions tasks health note)) =
        Some (Route.formatTop h) /\
      In h tasks /\ done h <> Some true /\
      (Spec.fallbackKey t <= Spec.fallbackKey h)%Z.
Proof.
  intros tasks health note t Hin Hd.
  assert (Hinc : forall x, In x (Route.incomplete tasks) <-> In x tasks /\ done x <> Some true).
  { intros x. unfold Route.incomplete. rewrite filter_In. split.
    - intros [H1 H2]. split; [exact H1|]. intros E. rewrite E in H2. discriminate.
    - intros [H1 H2]. split; [exact H1|]. destruct (done x) as [[|]|]; try reflexivity.
      congruence. }
  destruct (sort_head_greatest Spec.fallbackKey Route.fallbackCompare
              fallbackCompare_key (Route.incomplete tasks) t)
    as (h & rest & E & Hh & Hle); [now apply Hinc|].
  exists h. apply Hinc in Hh as [Hh1 Hh2].
  repeat split; try assumption.
  cbn [Route.buildFallbackSuggestions top]. unfold Route.prioritized. rewrite E.
  reflexivity.
Qed.

Lemma fallback_top_starts_with_greatest_witness :
  exists h,
    hd_error (top (Route.buildFallbackSuggestions [Samples.wild; Samples.plain]
                     Route.emptyHealth None)) = Some (Route.formatTop h) /\
    In h [Samples.wild; Samples.plain] /\ done h <> Some true /\
    (Spec.fallbackKey Samples.wild <= Spec.fallbackKey h)%Z.
Proof.
  apply (fallback_top_starts_with_greatest [Samples.wild; Samples.plain]
           Route.emptyHealth None Samples.wild).
  - left. reflexivity.
  - discriminate.
Defined.

Lemma filter_idem {A : Type} (f : A -> bool) (l : list A) :
  filter f (filter f l) = filter f l.
Proof.
  induction l as [|x l IH]; [reflexivity|].
  cbn [filter]. destruct (f x) eqn:E; [|exact IH].
  cbn [filter]. now rewrite E, IH.
Qed.

(** X13. The fallback bundle does not depend on the completed tasks:
    dropping them from the request changes nothing; and with every task
    completed, [top] is empty and [quickWins] is five filler lines. *)
Theorem fallback_ignores_completed_tasks :
  (forall (tasks : list Task) (health : Health) (note : option string),
     Route.buildFallbackSuggestions (Route.incomplete tasks) health note =
     Route.buildFallbackSuggestions tasks health note) /\
  (forall (tasks : list Task) (health : Health) (note : option string),
     Forall (fun t => done t = Some true) tasks ->
     top (Route.buildFallbackSuggestions tasks health note) = [] /\
     quickWins (Route.buildFallbackSuggestions tasks health note) =
       repeat Route.filler 5).
Proof.
  split.
  - intros tasks health note. unfold Route.buildFallbackSuggestions, Route.prioritized.
    assert (E : Route.incomplete (Route.incomplete tasks) = Route.incomplete tasks)
      by apply filter_idem.
    rewrite E. reflexivity.
  - intros tasks health note Hall.
    assert (E : Route.incomplete tasks = []).
    { unfold Route.incomplete. induction Hall as [|t ts Ht Hts IH]; [reflexivity|].
      cbn [filter]. rewrite Ht. exact IH. }
    unfold Route.buildFallbackSuggestions, Route.prioritized. rewrite E.
    split; reflexivity.
Qed.

Lemma fallback_ignores_completed_tasks_witness :
  top (Route.buildFallbackSuggestions
         [mkTask "1" "done already" 1 5 None (Some true)] Route.emptyHealth None) = [] /\
  quickWins (Route.buildFallbackSuggestions
         [mkTask "1" "done already" 1 5 None (Some true)] Route.emptyHealth None) =
    repeat Route.filler 5.
Proof.
  apply (proj2 fallback_ignores_completed_tasks
           [mkTask "1" "done already" 1 5 None (Some true)] Route.emptyHealth None).
  repeat constructor.
Defined.

(** ** Further properties of the planner state *)

Lemma trimEnd_idem (s : string) : JS.trimEnd (JS.trimEnd s) = JS.trimEnd s.
Proof.
  induction s as [|c s IH]; [reflexivity|].
  cbn [JS.trimEnd]. destruct (JS.trimEnd s) as [|d t] eqn:E.
  - destruct (JS.isWhiteSpace c) eqn:W; [reflexivity|].
    cbn [JS.trimEnd]. now rewrite W.
  - remember (String d t) as u eqn:Eu.
    cbn [JS.trimEnd]. rewrite IH. subst u. reflexivity.
Qed.

Lemma trimStart_head (s : string) :
  match JS.trimStart s with
  | "" => True
  | String c _ => JS.isWhiteSpace c = false
  end.
Proof.
  induction s as [|c s IH]; [exact I|].
  cbn [JS.trimStart]. destruct (JS.isWhiteSpace c) eqn:W; [exact IH | exact W].
Qed.

Lemma trimStart_trimEnd (t : string) :
  match t with "" => True | String c _ => JS.isWhiteSpace c = false end ->
  JS.trimStart (JS.trimEnd t) = JS.trimEnd t.
Proof.
  destruct t as [|c t]; [reflexivity|]. intros W.
  cbn [JS.trimEnd]. destruct (JS.trimEnd t); rewrite ?W; cbn [JS.trimStart];
    rewrite W; reflexivity.
Qed.

Lemma trim_idem (s : string) : JS.trim (JS.trim s) = JS.trim s.
Proof.
  unfold JS.trim. rewrite trimStart_trimEnd by apply trimStart_head.
  apply trimEnd_idem.
Qed.

Lemma step_keeps_stored (st : Page.State) (ev : Page.Event) :
  Forall Spec.storedTask (Page.tasks st) ->
  Forall Spec.storedTask (Page.tasks (Page.step st ev)).
Proof.
  intros Hts. destruct ev as [v|v|v|v|uuid|i]; cbn [Page.step]; try exact Hts.
  - unfold Page.addTask.
    destruct (String.eqb_spec (JS.trim (Page.taskTitle st)) "") as [|Hne]; [exact Hts|].
    cbn [Page.tasks]. apply Forall_app. split; [exact Hts|].
    constructor; [|constructor]. unfold Spec.storedTask. cbn [title done due].
    split; [exact Hne|]. split; [apply trim_idem|]. split; [now exists false|].
    destruct (String.eqb_spec (Page.taskDue st) ""); [discriminate|].
    intros E. injection E as E. contradiction.
  - cbn [Page.toggleDone Page.tasks]. apply Forall_map.
    eapply Forall_impl; [|exact Hts]. intros t Ht.
    destruct (id t =? i); [|exact Ht].
    destruct Ht as (H1 & H2 & H3 & H4). unfold Spec.storedTask. cbn [title done due].
    repeat split; try assumption. eexists. reflexivity.
Qed.

(** X14. Every task the page ever holds has a title that is not empty
    and has no white space at either end, a done flag that is set, and
    a due date that is absent or not empty, whatever the user does. *)
Theorem stored_tasks_are_well_formed :
  forall evs : list Page.Event, Forall Spec.storedTask (Page.tasks (Page.run evs)).
Proof.
  intros evs. unfold Page.run.
  assert (H : forall st, Forall Spec.storedTask (Page.tasks st) ->
                Forall Spec.storedTask (Page.tasks (fold_left Page.step evs st))).
  { induction evs as [|ev evs IH]; intros st Hst; [exact Hst|].
    cbn [fold_left]. apply IH, step_keeps_stored, Hst. }
  apply H. constructor.
Qed.

Lemma map_core_toggle (i : string) (ts : list Task) :
  map Spec.core
    (map (fun t =>
            if id t =? i
            then mkTask (id t) (title t) (effort t) (impact t) (due t)
                        (Some (negb (JS.truthyBool (done t))))
            else t) ts) = map Spec.core ts.
Proof.
  rewrite map_map. apply map_ext. intros t. destruct (id t =? i); reflexivity.
Qed.

(** X15. No action removes, reorders or edits a task: after any action
    the earlier tasks are still there in the same order, unchanged but
    for their done flag, followed by at most one new task; a new task
    appears only through [addTask] with a title that is not blank, and
    [addTask] with a blank title changes nothing. *)
Theorem tasks_are_only_appended :
  forall (st : Page.State) (ev : Page.Event),
    (exists added,
       map Spec.core (Page.tasks (Page.step st ev)) =
         (map Spec.core (Page.tasks st) ++ added)%list /\
       (List.length added <= 1)%nat /\
       (added <> [] ->
        exists uuid, ev = Page.AddTask uuid /\ JS.trim (Page.taskTitle st) <> "")) /\
    (forall uuid, JS.trim (Page.taskTitle st) = "" -> Page.addTask uuid st = st).
Proof.
  intros st ev. split.
  - destruct ev as [v|v|v|v|uuid|i]; cbn [Page.step];
      try (exists []; rewrite app_nil_r; cbn; repeat split; [lia | congruence]).
    + unfold Page.addTask.
      destruct (String.eqb_spec (JS.trim (Page.taskTitle st)) "") as [E|Hne].
      * exists []. rewrite app_nil_r. cbn. repeat split; [lia | congruence].
      * eexists. cbn [Page.tasks]. rewrite map_app. split; [reflexivity|].
        cbn. split; [lia|]. intros _. exists uuid. split; [reflexivity | exact Hne].
    + exists []. rewrite app_nil_r. cbn [Page.toggleDone Page.tasks].
      rewrite map_core_toggle. cbn. repeat split; [lia | congruence].
  - intros uuid E. unfold Page.addTask. rewrite E. reflexivity.
Qed.

Lemma tasks_are_only_appended_witness :
  Page.addTask "u" (Page.setTaskTitle "   " Page.initialState) =
  Page.setTaskTitle "   " Page.initialState.
Proof.
  apply (proj2 (tasks_are_only_appended (Page.setTaskTitle "   " Page.initialState)
                  (Page.AddTask "u")) "u").
  reflexivity.
Defined.

(** X16. Toggling twice restores the state, provided the done flags of
    the tasks are set (as they are for every task the page stores);
    and toggling an identifier no task has changes nothing. *)
Theorem toggleDone_twice_restores :
  forall (i : string) (st : Page.State),
    (Forall (fun t => exists b, done t = Some b) (Page.tasks st) ->
     Page.toggleDone i (Page.toggleDone i st) = st) /\
    (Forall (fun t => id t <> i) (Page.tasks st) -> Page.toggleDone i st = st).
Proof.
  intros i [ts tt te ti td]. unfold Page.toggleDone. cbn [Page.tasks Page.taskTitle
    Page.taskEffort Page.taskImpact Page.taskDue]. split.
  - intros H. f_equal. rewrite map_map.
    rewrite <- (map_id ts) at 2. apply map_ext_in. intros t Ht.
    rewrite Forall_forall in H. destruct (H t Ht) as [b Hb].
    destruct (id t =? i) eqn:E; [|now rewrite E].
    cbn [id]. rewrite E. cbn [id title effort impact due done].
    destruct t as [a b0 c d e f]. cbn in *. subst f. cbn. now rewrite negb_involutive.
  - intros H. f_equal. rewrite <- (map_id ts) at 2. apply map_ext_in. intros t Ht.
    rewrite Forall_forall in H. specialize (H t Ht).
    destruct (String.eqb_spec (id t) i); [contradiction | reflexivity].
Qed.

Lemma toggleDone_twice_restores_witness :
  Page.toggleDone "u1" (Page.toggleDone "u1" (Page.run Samples.session)) =
    Page.run Samples.session /\
  Page.toggleDone "nobody" (Page.run Samples.session) = Page.run Samples.session.
Proof.
  pose proof (toggleDone_twice_restores "u1" (Page.run Samples.session)) as [Htw _].
  pose proof (toggleDone_twice_restores "nobody" (Page.run Samples.session)) as [_ Hno].
  split.
  - apply Htw. repeat constructor; eexists; reflexivity.
  - apply Hno. repeat constructor; discriminate.
Defined.

(** X17. For a task with effort and impact between 1 and 5 the display
    score lies between -3 and 10 and the fallback's key between -3 and
    9. *)
Theorem scores_of_tasks_in_range :
  forall t : Task,
    Spec.inRange t ->
    (-3 <= Page.score t <= 10)%Z /\ (-3 <= Spec.fallbackKey t <= 9)%Z /\
    (Spec.fallbackKey t <= Page.score t <= Spec.fallbackKey t + 1)%Z.
Proof.
  intros t [He Hi]. unfold Page.score, Spec.fallbackKey.
  destruct (JS.truthyStr (due t)); lia.
Qed.

Lemma scores_of_tasks_in_range_witness :
  (-3 <= Page.score Samples.dated <= 10)%Z /\
  (-3 <= Spec.fallbackKey Samples.dated <= 9)%Z /\
  (Spec.fallbackKey Samples.dated <= Page.score Samples.dated
     <= Spec.fallbackKey Samples.dated + 1)%Z.
Proof.
  apply (scores_of_tasks_in_range Samples.dated).
  unfold Spec.inRange, Samples.dated. cbn. lia.
Defined.

(** ** Further properties of the prompt and of the handler *)

(** X18. The prompt shows "(none)" in the place of the task lines
    exactly when the task list is empty; with one task or more the
    numbered lines stand there, whatever the titles are. *)
Theorem prompt_says_none_only_without_tasks :
  forall (tasks : list Task) (health : Health),
    (Route.taskLines tasks = "" <-> tasks = []) /\
    Route.buildPrompt tasks health =
    JS.join
      [ "Here are my current tasks and health metrics."; ""; "Tasks:";
        match tasks with [] => "(none)" | _ => Route.taskLines tasks end;
        ""; "Health:";
        "Sleep: " ++ JS.numberToString (Route.metric (sleepHours health)) ++
          "h, Water: " ++ JS.numberToString (Route.metric (waterCups health)) ++
          " cups, Steps: " ++ JS.numberToString (Route.metric (steps health)) ++
          ", Breaks/hour: " ++ JS.numberToString (Route.metric (breaksPerHour health)) ++
          ", Mood: " ++ Route.moodText (mood health);
        ""; "Please produce:";
        "1) A short day plan (time-boxed blocks).";
        "2) Top 5 task priorities with justifications (impact/effort/urgency).";
        "3) 5 habit tweaks that support today's workload (sleep, hydration, steps, breaks).";
        "4) 5 quick wins I can do in 10 minutes or less.";
        "Use markdown with headings and bullet lists. Be concrete, no fluff." ]
      JS.nl.
Proof.
  intros tasks health. split; [apply taskLines_empty_iff|].
  unfold Route.buildPrompt. destruct tasks as [|t ts]; [reflexivity|].
  destruct (String.eqb_spec (Route.taskLines (t :: ts)) "") as [E|_]; [|reflexivity].
  apply taskLines_empty_iff in E. discriminate.
Qed.

Lemma prompt_says_none_only_without_tasks_witness :
  Route.taskLines [] = "".
Proof.
  apply (proj2 (proj1 (prompt_says_none_only_without_tasks [] Route.emptyHealth))).
  reflexivity.
Defined.



(** ** Asking for insights *)

Lemma errorText_nonempty (message : option string) : Page.errorText message <> "".
Proof.
  unfold Page.errorText. destruct message as [m|]; cbn; [|discriminate].
  destruct (String.eqb_spec m ""); cbn; [discriminate | assumption].
Qed.

(** X20. However the request for insights ends, the page is left not
    loading and with exactly one of the two set: an answer to render or
    an error message; neither is ever the empty text. *)
Theorem getInsights_answer_or_error :
  forall (bodyText : Route.Response -> string) (f : Page.Fetched),
    let ins := Page.getInsights bodyText f in
    Page.loading ins = false /\
    ((exists a, Page.aiResponse ins = Some a /\ a <> "" /\ Page.error ins = None) \/
     (exists e, Page.error ins = Some e /\ e <> "" /\ Page.aiResponse ins = None)).
Proof.
  intros bodyText f. cbv zeta. unfold Page.getInsights.
  destruct f as [message | r].
  - split; [reflexivity|]. right. eexists. cbn.
    repeat split. apply errorText_nonempty.
  - destruct (negb (Page.responseOk r)).
    + split; [reflexivity|]. right. eexists. cbn.
      repeat split. apply errorText_nonempty.
    + destruct (Route.payload r) as [p b | p c | e].
      * split; [reflexivity|]. left. eexists. cbn. repeat split. discriminate.
      * destruct (String.eqb_spec c ""); cbn [negb].
        -- split; [reflexivity|]. left. eexists. cbn. repeat split. discriminate.
        -- split; [reflexivity|]. left. eexists. cbn. repeat split. assumption.
      * split; [reflexivity|]. left. eexists. cbn. repeat split. discriminate.
Qed.



(** ** The fallback bundle on the page *)

Lemma singleLine_app (a b : string) :
  Spec.singleLine (a ++ b) = Spec.singleLine a && Spec.singleLine b.
Proof. apply allChars_app. Qed.

Lemma slice_zero (s : string) : JS.slice s 0 = s.
Proof. destruct s; reflexivity. Qed.

Lemma last_is_not_list (pre : list string) :
  Spec.isListLine (last pre "") = false ->
  forall pre' x, pre = (pre' ++ [x])%list -> Spec.isListLine x = false.
Proof. intros H pre' x ->. now rewrite last_last in H. Qed.

Lemma dash_lines (hs : list string) :
  Forall (fun h => Spec.singleLine h = true) hs ->
  let hl := map (fun h => "- " ++ h) hs in
  flat_map JS.splitLines hl = hl /\
  Forall (fun x => Spec.allChars (fun c => negb (Ascii.eqb c JS.CR)) x = true) hl /\
  Forall (fun l => Spec.isListLine l = true) hl /\
  Spec.listOf hl = Spec.itemList hs.
Proof.
  intros H hl. subst hl.
  assert (Hs : Forall (fun l => Spec.singleLine l = true) (map (fun h => "- " ++ h) hs)).
  { apply Forall_map. eapply Forall_impl; [|exact H]. intros h Hh.
    rewrite singleLine_app, Hh. reflexivity. }
  split; [|split; [|split]].
  - clear H. induction Hs as [|l ls Hl Hls IH]; [reflexivity|].
    cbn [flat_map]. rewrite (splitLines_single l Hl), IH. reflexivity.
  - eapply Forall_impl; [|exact Hs]. exact singleLine_noCR.
  - apply Forall_map, Forall_forall. intros h _.
    unfold Spec.isListLine, JS.startsWith. cbn. apply prefix_nil.
  - unfold Spec.listOf, Spec.itemList, Spec.wrapList, JS.join. rewrite map_map.
    do 3 f_equal. apply map_ext. intros h. rewrite escapeHtml_each.
    change (JS.slice ("- " ++ h) 2) with (JS.slice h 0).
    now rewrite slice_zero.
Qed.

Lemma itemList_is_ul (xs : list string) :
  JS.startsWith (Spec.itemList xs) "<ul>" = true.
Proof. unfold JS.startsWith, Spec.itemList. cbn. apply prefix_nil. Qed.

Lemma fallbackFragments_two_lists (hs qs : list string) :
  Spec.countLists (Spec.fallbackFragments hs qs) = 2%nat.
Proof.
  assert (Hone : forall xs, Spec.countLists [Spec.itemList xs] = 1%nat).
  { intros xs. unfold Spec.countLists. cbn [filter].
    rewrite (itemList_is_ul xs). reflexivity. }
  change (Spec.fallbackFragments hs qs) with
    (firstn 13 (Spec.fallbackFragments [] []) ++ [Spec.itemList hs] ++
     firstn 3 (skipn 14 (Spec.fallbackFragments [] [])) ++ [Spec.itemList qs])%list.
  rewrite !countLists_app, !Hone.
  assert (H13 : Spec.countLists (firstn 13 (Spec.fallbackFragments [] [])) = 0%nat)
    by (vm_compute; reflexivity).
  assert (H3 : Spec.countLists (firstn 3 (skipn 14 (Spec.fallbackFragments [] []))) = 0%nat)
    by (vm_compute; reflexivity).
  rewrite H13, H3. reflexivity.
Qed.

Lemma bundle_fragments (b : SuggestionBundle) :
  plan b = plan (Route.buildFallbackSuggestions [] Route.emptyHealth None) ->
  habits b <> [] -> quickWins b <> [] ->
  Forall (fun h => Spec.singleLine h = true) (habits b) ->
  Forall (fun q => Spec.singleLine q = true) (quickWins b) ->
  Page.mergeFragments
    (map Page.renderLine (JS.splitLines (Page.suggestionsMarkdown b))) =
  Spec.fallbackFragments (habits b) (quickWins b).
Proof.
  destruct b as [p hs qs tp]. cbn [plan habits quickWins].
  intros -> Hhs Hqs Hh Hq.
  destruct (dash_lines hs Hh) as (Hh1 & Hh2 & Hh3 & Hh4).
  destruct (dash_lines qs Hq) as (Hq1 & Hq2 & Hq3 & Hq4).
  cbv zeta in *.
  unfold Page.suggestionsMarkdown. cbn [plan habits quickWins Route.buildFallbackSuggestions].
  rewrite splitLines_join_flat.
  2: { cbn [app]. discriminate. }
  2: { apply Forall_app. split; [repeat constructor|].
       apply Forall_app. split; [exact Hh2|].
       apply Forall_app. split; [repeat constructor | exact Hq2]. }
  rewrite !flat_map_app, Hh1, Hq1.
  repeat match goal with
  | |- context [flat_map JS.splitLines ?l] =>
      let v := eval vm_compute in (flat_map JS.splitLines l) in
      change (flat_map JS.splitLines l) with v
  end.
  rewrite mergeFragments_run.
  - rewrite <- (app_nil_r (map (fun q => "- " ++ q) qs)).
    rewrite (mergeFragments_run [""; "## Quick Wins"; ""]).
    + rewrite Hh4, Hq4. reflexivity.
    + apply last_is_not_list. reflexivity.
    + destruct qs; [contradiction | discriminate].
    + exact Hq3.
    + intros x post' E. discriminate.
  - apply last_is_not_list. reflexivity.
  - destruct hs; [contradiction | discriminate].
  - exact Hh3.
  - intros x post' E. cbn [app] in E. injection E as <- _. reflexivity.
Qed.

Lemma In_firstn_inv {A : Type} (n : nat) (l : list A) (x : A) :
  In x (firstn n l) -> In x l.
Proof.
  revert l. induction n as [|n IH]; intros l H; [contradiction|].
  destruct l as [|y l]; [contradiction|].
  cbn [firstn] in H. destruct H as [->|H]; [left; reflexivity | right; now apply IH].
Qed.

Lemma habits_single_lines (tasks : list Task) (health : Health) (note : option string) :
  (forall n, note = Some n -> Spec.singleLine n = true) ->
  Forall (fun h => Spec.singleLine h = true)
         (habits (Route.buildFallbackSuggestions tasks health note)) /\
  habits (Route.buildFallbackSuggestions tasks health note) <> [].
Proof.
  intros Hn. cbn [Route.buildFallbackSuggestions habits].
  assert (Htips : forall (c1 c2 c3 c4 : bool) (a1 b1 a2 b2 a3 b3 a4 b4 : string),
    Spec.singleLine a1 = true -> Spec.singleLine b1 = true ->
    Spec.singleLine a2 = true -> Spec.singleLine b2 = true ->
    Spec.singleLine a3 = true -> Spec.singleLine b3 = true ->
    Spec.singleLine a4 = true -> Spec.singleLine b4 = true ->
    Forall (fun h => Spec.singleLine h = true)
      [if c1 then a1 else b1; if c2 then a2 else b2;
       if c3 then a3 else b3; if c4 then a4 else b4]).
  { intros [|] [|] [|] [|]; intros; repeat constructor; assumption. }
  destruct (JS.truthyStr note) eqn:Et.
  - split; [|discriminate]. constructor; [|apply Htips; reflexivity].
    destruct note as [n|]; [|discriminate].
    rewrite singleLine_app, (Hn n eq_refl). reflexivity.
  - split; [apply Htips; reflexivity | discriminate].
Qed.

Lemma quickWins_single_lines (tasks : list Task) (health : Health) (note : option string) :
  Forall (fun t => Spec.singleLine (title t) = true) tasks ->
  Forall (fun q => Spec.singleLine q = true)
         (quickWins (Route.buildFallbackSuggestions tasks health note)) /\
  quickWins (Route.buildFallbackSuggestions tasks health note) <> [].
Proof.
  intros Ht. split.
  - destruct (quickWins_padded tasks health note) as [-> _].
    apply Forall_app. split.
    + apply Forall_map, Forall_forall. intros t Hin.
      apply In_firstn_inv in Hin. apply filter_In in Hin as [Hin _].
      unfold Route.incomplete in Hin. apply filter_In in Hin as [Hin _].
      rewrite Forall_forall in Ht. unfold Route.formatQuickWin.
      rewrite !singleLine_app, (Ht t Hin). reflexivity.
    + apply Forall_forall. intros q Hq. apply repeat_spec in Hq. subst q. reflexivity.
  - pose proof (quickWins_length tasks health note) as Hl.
    intros E. rewrite E in Hl. discriminate.
Qed.

(** X22. The fallback bundle as the page renders it.  When no title
    and no note holds a line break, the markdown the page assembles
    from the bundle is rendered as the heading of the plan, its eight
    blocks as paragraphs, the heading of the habits followed by one
    list of all the habits, and the heading of the quick wins followed
    by one list of all the quick wins: exactly two lists, every item
    escaped. *)
Theorem fallback_bundle_rendering :
  forall (tasks : list Task) (health : Health) (note : option string),
    Forall (fun t => Spec.singleLine (title t) = true) tasks ->
    (forall n, note = Some n -> Spec.singleLine n = true) ->
    let b := Route.buildFallbackSuggestions tasks health note in
    let md := Page.suggestionsMarkdown b in
    Page.mergeFragments (map Page.renderLine (JS.splitLines md)) =
      Spec.fallbackFragments (habits b) (quickWins b) /\
    Page.Markdown md = concat "" (Spec.fallbackFragments (habits b) (quickWins b)) /\
    Spec.countLists (Page.mergeFragments (map Page.renderLine (JS.splitLines md))) = 2%nat.
Proof.
  intros tasks health note Ht Hn b md.
  destruct (habits_single_lines tasks health note Hn) as [Hh Hhne].
  destruct (quickWins_single_lines tasks health note Ht) as [Hq Hqne].
  assert (E : Page.mergeFragments (map Page.renderLine (JS.splitLines md)) =
              Spec.fallbackFragments (habits b) (quickWins b)).
  { subst md. apply bundle_fragments; [reflexivity | assumption ..]. }
  split; [exact E|]. split.
  - unfold Page.Markdown, JS.join. cbv zeta. fold md. rewrite E. reflexivity.
  - rewrite E. apply fallbackFragments_two_lists.
Qed.

Lemma fallback_bundle_rendering_witness :
  Spec.countLists
    (Page.mergeFragments
       (map Page.renderLine
          (JS.splitLines
             (Page.suggestionsMarkdown
                (Route.buildFallbackSuggestions [Samples.plain] Samples.exampleHealth
                   (Some "AI error: 503")))))) = 2%nat.
Proof.
  apply (proj2 (proj2 (fallback_bundle_rendering [Samples.plain] Samples.exampleHealth
                         (Some "AI error: 503") ltac:(repeat constructor)
                         ltac:(intros n E; injection E as <-; reflexivity)))).
Defined.

(** The condition on the note is needed: a note with a line break
    breaks the list of habits in two. *)
Example multi_line_note_splits_habits :
  Spec.countLists
    (Page.mergeFragments
       (map Page.renderLine
          (JS.splitLines
             (Page.suggestionsMarkdown
                (Route.buildFallbackSuggestions [] Samples.exampleHealth
                   (Some ("AI error: {" ++ JS.nl ++ "}"))))))) = 3%nat.
Proof. lazy. reflexivity. Qed.

(** ** The two orderings compared *)

Lemma insert_ext_in {A : Type} (c1 c2 : A -> A -> Z) (x : A) (l : list A) :
  (forall y, In y l -> c1 x y = c2 x y) ->
  JS.insert c1 x l = JS.insert c2 x l.
Proof.
  induction l as [|y l IH]; intros H; [reflexivity|].
  cbn [JS.insert]. rewrite (H y (or_introl eq_refl)).
  destruct (c2 x y <=? 0)%Z; [reflexivity|].
  rewrite IH; [reflexivity|]. intros z Hz. apply H. now right.
Qed.

Lemma sort_ext_in {A : Type} (c1 c2 : A -> A -> Z) (l : list A) :
  (forall x y, In x l -> In y l -> c1 x y = c2 x y) ->
  JS.sort c1 l = JS.sort c2 l.
Proof.
  induction l as [|x l IH]; intros H; [reflexivity|].
  cbn [JS.sort]. rewrite IH by (intros; apply H; now right).
  apply insert_ext_in. intros y Hy. apply H; [now left|].
  right. eapply Permutation_in; [apply sort_perm | exact Hy].
Qed.

(** X23. Where the due dates make no difference among the incomplete
    tasks (none of them has one, or all of them have one), the
    fallback ranks them exactly as the page displays them. *)
Theorem fallback_order_is_display_order_without_due_dates :
  forall (tasks : list Task) (d : bool),
    Forall (fun t => JS.truthyStr (due t) = d) (Route.incomplete tasks) ->
    Route.prioritized tasks = Page.prioritized (Route.incomplete tasks).
Proof.
  intros tasks d H. unfold Route.prioritized, Page.prioritized.
  apply sort_ext_in. intros x y Hx Hy. rewrite Forall_forall in H.
  unfold Route.fallbackCompare, Page.score. rewrite (H x Hx), (H y Hy). lia.
Qed.

Lemma fallback_order_is_display_order_without_due_dates_witness :
  Route.prioritized [Samples.wild; Samples.plain] =
  Page.prioritized (Route.incomplete [Samples.wild; Samples.plain]).
Proof.
  apply (fallback_order_is_display_order_without_due_dates
           [Samples.wild; Samples.plain] false).
  repeat constructor.
Defined.

(** ** Identifiers *)

Lemma step_ids (st : Page.State) (ev : Page.Event) :
  map id (Page.tasks (Page.step st ev)) = map id (Page.tasks st) \/
  exists uuid, ev = Page.AddTask uuid /\
    map id (Page.tasks (Page.step st ev)) = (map id (Page.tasks st) ++ [uuid])%list.
Proof.
  destruct ev as [v|v|v|v|uuid|i]; cbn [Page.step]; try (left; reflexivity).
  - unfold Page.addTask. destruct (JS.trim (Page.taskTitle st) =? "");
      [left; reflexivity|].
    right. exists uuid. split; [reflexivity|]. cbn [Page.tasks]. now rewrite map_app.
  - left. cbn [Page.toggleDone Page.tasks]. rewrite map_map. apply map_ext.
    intros t. destruct (id t =? i); reflexivity.
Qed.

Lemma run_ids_nodup (evs : list Page.Event) (st : Page.State) :
  NoDup (map id (Page.tasks st) ++ Spec.addedIds evs) ->
  NoDup (map id (Page.tasks (fold_left Page.step evs st))).
Proof.
  revert st. induction evs as [|ev evs IH]; intros st H.
  - cbn in *. now rewrite app_nil_r in H.
  - cbn [fold_left]. apply IH.
    destruct (step_ids st ev) as [E | (uuid & -> & E)]; rewrite E.
    + destruct ev; cbn [Spec.addedIds] in H; try exact H.
      eapply NoDup_remove_1. exact H.
    + cbn [Spec.addedIds] in H. now rewrite <- app_assoc.
Qed.

(** X24. If the identifiers handed to [addTask] are pairwise distinct,
    no two tasks the page holds share an identifier, whatever else the
    user does in between. *)
Theorem task_ids_stay_distinct :
  forall evs : list Page.Event,
    NoDup (Spec.addedIds evs) -> NoDup (map id (Page.tasks (Page.run evs))).
Proof. intros evs H. unfold Page.run. apply run_ids_nodup. exact H. Qed.

Lemma task_ids_stay_distinct_witness :
  NoDup (map id (Page.tasks (Page.run Samples.session))).
Proof.
  apply (task_ids_stay_distinct Samples.session).
  repeat constructor; cbn; intuition discriminate.
Defined.

(** X25. [toggleDone] flips the done flag of every task with the given
    identifier and leaves the other tasks as they are; when the
    identifiers are distinct it changes exactly one task, in place. *)
Theorem toggleDone_flips_in_place :
  forall (i : string) (st : Page.State),
    Page.tasks (Page.toggleDone i st) =
      map (fun t => if id t =? i then Spec.flipped t else t) (Page.tasks st) /\
    (forall l1 t l2,
       Page.tasks st = (l1 ++ t :: l2)%list -> id t = i ->
       NoDup (map id (Page.tasks st)) ->
       Page.tasks (Page.toggleDone i st) = (l1 ++ Spec.flipped t :: l2)%list).
Proof.
  intros i st. split; [reflexivity|].
  intros l1 t l2 E Hi Hnd. cbn [Page.toggleDone Page.tasks]. rewrite E in *.
  rewrite map_app in Hnd. cbn [map] in Hnd.
  pose proof (NoDup_remove_2 _ _ _ Hnd) as Hnot.
  rewrite map_app. cbn [map]. rewrite Hi, String.eqb_refl.
  assert (Hsame : forall l, (forall x, In x l -> id x <> i) ->
            map (fun t0 => if id t0 =? i
                           then mkTask (id t0) (title t0) (effort t0) (impact t0) (due t0)
                                       (Some (negb (JS.truthyBool (done t0))))
                           else t0) l = l).
  { intros l Hl. rewrite <- (map_id l) at 2. apply map_ext_in. intros x Hx.
    destruct (String.eqb_spec (id x) i); [exfalso; now apply (Hl x Hx) | reflexivity]. }
  rewrite !Hsame; [unfold Spec.flipped; now rewrite Hi | |].
  - intros x Hx Ex. apply Hnot. apply in_or_app. right.
    rewrite Hi, <- Ex. now apply in_map.
  - intros x Hx Ex. apply Hnot. apply in_or_app. left.
    rewrite Hi, <- Ex. now apply in_map.
Qed.

Lemma toggleDone_flips_in_place_witness :
  Page.tasks (Page.toggleDone "2"
    (Page.mkState [Samples.plain; Samples.dated] "" 2 3 "")) =
  [Samples.plain; Spec.flipped Samples.dated].
Proof.
  apply (proj2 (toggleDone_flips_in_place "2"
                  (Page.mkState [Samples.plain; Samples.dated] "" 2 3 ""))
           [Samples.plain] Samples.dated []).
  - reflexivity.
  - reflexivity.
  - repeat constructor; cbn; intuition discriminate.
Defined.
